(** * HealthForAll: the document pipeline of [server.js]

    A shallow embedding of the two functions that carry the logic of the
    server, [parseDocumentWithLlamaParse] and [summarizeWithGemini], with
    the properties of the polling loop, of the text extraction and of the
    chain of models.

    Conventions of the embedding:
    - a response body is a JSON tree ([value]); a property read that finds
      nothing is [None] (JavaScript's [undefined]);
    - an object lists its properties in the order in which the engine
      enumerates them ([for..in], [Object.keys], [JSON.stringify]), each key
      once;
    - numbers are integers, and a string is a sequence of characters of one
      code unit each, so [String.length] is the [.length] of the source;
    - a remote call ([axios], the Gemini SDK) is answered by the service,
      which sees the request and the number of calls made before it; the
      call is recorded in a trace, together with the delays of the loop;
    - a thrown value is an error with its [message] and, for an HTTP error,
      the [response] of the server;
    - [console.*] calls are left out, except where evaluating their
      arguments can throw.

    The file has four parts: the program, reference definitions in the words
    of the specification, scenarios, and the properties. *)

From Stdlib Require Import String Ascii List ZArith Lia Bool Arith DecimalString.
Import ListNotations.
Open Scope string_scope.

(** ** JSON values and the JavaScript operations on them *)

#[warnings="-register-all"]
Inductive value : Type :=
| VNull
| VBool (b : bool)
| VNum (n : Z)
| VStr (s : string)
| VArr (items : list value)
| VObj (fields : list (string * value)).

(** [!!v] of the source: [null], [false], [0] and [''] are falsy. *)
Definition truthy (v : value) : bool :=
  match v with
  | VNull => false
  | VBool b => b
  | VNum n => negb (n =? 0)%Z
  | VStr s => negb (s =? "")
  | VArr _ | VObj _ => true
  end.

Fixpoint assoc (k : string) (fs : list (string * value)) : option value :=
  match fs with
  | [] => None
  | (k', v) :: rest => if k =? k' then Some v else assoc k rest
  end.

(** [v.k] for the property names the program reads ([status], [id],
    [markdown], ...): none of them is inherited by an array, a string, a
    number or a boolean, so only an object can answer. *)
Definition get (k : string) (v : value) : option value :=
  match v with
  | VObj fs => assoc k fs
  | _ => None
  end.

(** [v.k] when it is truthy: the guard [if (v.k)] together with the value
    that the branch then reads. *)
Definition field (k : string) (v : value) : option value :=
  match get k v with
  | Some x => if truthy x then Some x else None
  | None => None
  end.

Definition dec (z : Z) : string := NilZero.string_of_int (Z.to_int z).

Definition nl : string := String "010"%char EmptyString.
Definition dquote : string := String "034"%char EmptyString.

(** [String(v)], as a template literal applies it. *)
Fixpoint to_string (v : value) : string :=
  match v with
  | VNull => "null"
  | VBool true => "true"
  | VBool false => "false"
  | VNum n => dec n
  | VStr s => s
  | VArr l =>
      String.concat ","
        (map (fun x => match x with VNull => "" | _ => to_string x end) l)
  | VObj _ => "[object Object]"
  end.

Definition hex_digit (n : nat) : ascii :=
  if (n <? 10)%nat then ascii_of_nat (48 + n) else ascii_of_nat (87 + n).

(** One character of a JSON string literal. *)
Definition escape_char (c : ascii) : string :=
  let n := nat_of_ascii c in
  if (n =? 34)%nat then "\" ++ dquote
  else if (n =? 92)%nat then "\\"
  else if (n =? 8)%nat then "\b"
  else if (n =? 12)%nat then "\f"
  else if (n =? 10)%nat then "\n"
  else if (n =? 13)%nat then "\r"
  else if (n =? 9)%nat then "\t"
  else if (n <? 32)%nat then
    "\u00" ++ String (hex_digit (n / 16)) (String (hex_digit (n mod 16)) EmptyString)
  else String c EmptyString.

Fixpoint escape (s : string) : string :=
  match s with
  | EmptyString => EmptyString
  | String c rest => escape_char c ++ escape rest
  end.

Definition quote (s : string) : string := dquote ++ escape s ++ dquote.

(** [JSON.stringify(v)]. *)
Fixpoint stringify (v : value) : string :=
  match v with
  | VNull => "null"
  | VBool true => "true"
  | VBool false => "false"
  | VNum n => dec n
  | VStr s => quote s
  | VArr l => "[" ++ String.concat "," (map stringify l) ++ "]"
  | VObj fs =>
      "{" ++ String.concat ","
               (map (fun kv => quote (fst kv) ++ ":" ++ stringify (snd kv)) fs)
          ++ "}"
  end.

(** [JSON.stringify(v, null, 2)], at the current indentation. *)
Fixpoint stringify_indent (indent : string) (v : value) : string :=
  match v with
  | VNull => "null"
  | VBool true => "true"
  | VBool false => "false"
  | VNum n => dec n
  | VStr s => quote s
  | VArr [] => "[]"
  | VArr l =>
      let inner := indent ++ "  " in
      "[" ++ nl ++ inner
          ++ String.concat ("," ++ nl ++ inner) (map (stringify_indent inner) l)
          ++ nl ++ indent ++ "]"
  | VObj [] => "{}"
  | VObj fs =>
      let inner := indent ++ "  " in
      "{" ++ nl ++ inner
          ++ String.concat ("," ++ nl ++ inner)
               (map (fun kv => quote (fst kv) ++ ": " ++ stringify_indent inner (snd kv)) fs)
          ++ nl ++ indent ++ "}"
  end.

Definition stringify2 (v : value) : string := stringify_indent "" v.

(** [s.includes(needle)]. *)
Fixpoint includes (needle s : string) : bool :=
  String.prefix needle s
  || match s with
     | EmptyString => false
     | String _ rest => includes needle rest
     end.

(** ** Text extraction (lines 280-334) *)

(** [findTextInObject]: [for (const key in obj)] visits the elements of an
    array and the properties of an object in order; the result is the string
    found, or [null]. *)
Fixpoint findTextInObject (obj : value) : value :=
  let visit (v : value) (later : value) : value :=
    match v with
    | VStr s => if (100 <? String.length s)%nat then v else later
    | VArr _ | VObj _ =>
        let found := findTextInObject v in
        if truthy found then found else later
    | _ => later
    end in
  match obj with
  | VArr l =>
      (fix scan (vs : list value) : value :=
         match vs with
         | [] => VNull
         | v :: rest => visit v (scan rest)
         end) l
  | VObj fs =>
      (fix scan (kvs : list (string * value)) : value :=
         match kvs with
         | [] => VNull
         | (_, v) :: rest => visit v (scan rest)
         end) fs
  | _ => VNull
  end.

(** The chain of [if (documentData.markdown) ... else if ...] of lines
    280-334: the new value of [parsedText], given its current value and
    [documentData]. A branch whose inner tests all fail assigns nothing. *)
Definition extract (parsedText documentData : value) : value :=
  match field "markdown" documentData with Some v => v | None =>
  match field "text" documentData with Some v => v | None =>
  match field "content" documentData with Some v => v | None =>
  match field "parsed_content" documentData with Some v => v | None =>
  match field "result" documentData with
  | Some r =>
      match r with
      | VStr _ => r
      | _ =>
          match field "markdown" r with Some v => v | None =>
          match field "text" r with Some v => v | None =>
          match field "content" r with Some v => v | None =>
          parsedText end end end
      end
  | None =>
  match field "data" documentData with
  | Some r =>
      match r with
      | VStr _ => r
      | _ =>
          match field "markdown" r with Some v => v | None =>
          match field "text" r with Some v => v | None =>
          parsedText end end
      end
  | None =>
  match field "document" documentData with
  | Some r =>
      match r with
      | VStr _ => r
      | _ =>
          match field "markdown" r with Some v => v | None =>
          match field "text" r with Some v => v | None =>
          parsedText end end
      end
  | None =>
  match documentData with
  | VStr _ => documentData
  | _ =>
      let found := findTextInObject documentData in
      if truthy found then found else VStr (stringify2 documentData)
  end end end end end end end end.

Definition has (k : string) (v : value) : bool :=
  match field k v with Some _ => true | None => false end.

(** [hasResult] of line 197, as the test [!hasResult] reads it. *)
Definition hasResult (documentData : value) : bool :=
  has "markdown" documentData || has "text" documentData
  || has "content" documentData || has "result" documentData
  || has "data" documentData || has "parsed_content" documentData.

(** ** Job status (lines 185, 342, 345, 347) *)

Inductive job_status : Type := Success | Failed | Pending | Unknown.

(** [x === 'lit']: a strict comparison of a property with a string literal. *)
Definition is_str (lit : string) (x : option value) : bool :=
  match x with
  | Some (VStr s) => s =? lit
  | _ => false
  end.

(** The branch that the chain of comparisons on [statusResponse.data.status]
    takes. *)
Definition classify (status : option value) : job_status :=
  if is_str "success" status || is_str "SUCCESS" status then Success
  else if is_str "error" status || is_str "ERROR" status then Failed
  else if is_str "pending" status || is_str "PENDING" status then Pending
  else Unknown.

(** ** Effects: remote calls, delays and exceptions *)

(** [error.response] of an axios error. *)
Record http_response : Type := { resp_status : Z; resp_data : value }.

(** A thrown error: its [message] and, for an axios error that carries the
    answer of the server, its [response]. *)
Record js_error : Type := { message : string; response : option http_response }.

Definition Error (msg : string) : js_error :=
  {| message := msg; response := None |}.

Inductive request : Type :=
| Upload (url filePath : string)
| Get (url : string)
| Post (url : string) (body : value)
| Generate (model prompt : string).

Inductive reply : Type :=
| Reply (data : value)
| Fault (e : js_error).

Inductive event : Type :=
| Sleep (ms : Z)
| Call (r : request).

Record state : Type := { calls : nat; trace : list event }.

Definition start : state := {| calls := 0; trace := [] |}.

Inductive res (A : Type) : Type :=
| Ok (a : A)
| Throw (e : js_error).
Arguments Ok {A} a.
Arguments Throw {A} e.

Definition M (A : Type) : Type := state -> res A * state.

Definition ret {A} (a : A) : M A := fun s => (Ok a, s).

Definition bind {A B} (m : M A) (f : A -> M B) : M B :=
  fun s => match m s with
           | (Ok a, s') => f a s'
           | (Throw e, s') => (Throw e, s')
           end.

Definition throw {A} (e : js_error) : M A := fun s => (Throw e, s).

(** [try { m } catch (e) { h e }]. *)
Definition try_catch {A} (m : M A) (h : js_error -> M A) : M A :=
  fun s => match m s with
           | (Ok a, s') => (Ok a, s')
           | (Throw e, s') => h e s'
           end.

(** The outcome of [m] as a value, for a [try] block whose handler goes on
    with variables that the block has assigned. *)
Definition attempt {A} (m : M A) : M (A + js_error) :=
  fun s => match m s with
           | (Ok a, s') => (Ok (inl a), s')
           | (Throw e, s') => (Ok (inr e), s')
           end.

Declare Scope js_scope.
Delimit Scope js_scope with js.
Notation "x <- m ;; k" := (bind m (fun x => k))
  (at level 61, m at next level, right associativity) : js_scope.
Notation "m ;; k" := (bind m (fun _ => k))
  (at level 61, right associativity) : js_scope.
Open Scope js_scope.

Definition record (e : event) (s : state) : state :=
  {| calls := calls s; trace := trace s ++ [e] |}.

Definition called (r : request) (s : state) : state :=
  {| calls := S (calls s); trace := trace s ++ [Call r] |}.

(** [await new Promise(resolve => setTimeout(resolve, ms))]. *)
Definition sleep (ms : Z) : M unit := fun s => (Ok tt, record (Sleep ms) s).

(** [v.k] where [v] may be [null]: reading a property of [null] throws. *)
Definition read (k : string) (v : value) : M (option value) :=
  match v with
  | VNull => throw (Error ("Cannot read properties of null (reading '" ++ k ++ "')"))
  | _ => ret (get k v)
  end.

(** [Object.keys(v)], evaluated for a log line: it throws on [null]. *)
Definition object_keys (v : value) : M unit :=
  match v with
  | VNull => throw (Error "Cannot convert undefined or null to object")
  | _ => ret tt
  end.

(** [a || b] on property reads. *)
Definition or_else (a b : option value) : option value :=
  match a with
  | Some x => if truthy x then a else b
  | None => b
  end.

(** [error.response?.status === 404]. *)
Definition is404 (e : js_error) : bool :=
  match response e with
  | Some r => (resp_status r =? 404)%Z
  | None => false
  end.

(** [s.toLowerCase()] on the letters A-Z. *)
Definition lower_char (c : ascii) : ascii :=
  let n := nat_of_ascii c in
  if ((65 <=? n) && (n <=? 90))%nat then ascii_of_nat (n + 32) else c.

Fixpoint toLowerCase (s : string) : string :=
  match s with
  | EmptyString => EmptyString
  | String c rest => String (lower_char c) (toLowerCase rest)
  end.

(** A call of a remote service ([axios.get], [axios.post], or
    [generateContent] of the SDK): the service answers, and a fault is
    thrown. *)
Definition call (remote : nat -> request -> reply) (r : request) : M value :=
  fun s => match remote (calls s) r with
           | Reply d => (Ok d, called r s)
           | Fault e => (Throw e, called r s)
           end.

(** ** [parseDocumentWithLlamaParse] *)

Definition LLAMAPARSE_API_URL : string :=
  "https://api.cloud.llamaindex.ai/api/v1/parsing/upload".
Definition LLAMAPARSE_BASE_URL : string := "https://api.cloud.llamaindex.ai".

Definition maxAttempts : nat := 60.

(** How one iteration of the polling loop ends: [break] with the text, or
    falling through to [attempts++]. *)
Inductive ctl : Type :=
| Break (parsedText : value)
| Next (parsedText : value).

Section LlamaParse.

(** The remote services: the answer to a request, given how many requests
    were made before it. *)
Variable remote : nat -> request -> reply.

(** [path.extname], and [fs.readFileSync(p, 'utf-8')] ([None] when it
    throws). *)
Variable extname : string -> string.
Variable readFileSync : string -> option string.

(** [readTextFile]: the content of a [.txt] file, else [null]. *)
Definition readTextFile (filePath : string) : value :=
  let ext := toLowerCase (extname filePath) in
  if ext =? ".txt" then
    match readFileSync filePath with
    | Some content => VStr content
    | None => VNull
    end
  else VNull.

Definition status_v1 (jobId : value) : string :=
  LLAMAPARSE_BASE_URL ++ "/api/v1/parsing/job/" ++ to_string jobId.
Definition status_legacy (jobId : value) : string :=
  LLAMAPARSE_BASE_URL ++ "/api/parsing/job/" ++ to_string jobId.

(** Lines 156-180: the status of the job, from the v1 path and, when that
    call throws, from the path without a version. *)
Definition status_query (jobId : value) : M value :=
  try_catch (call remote (Get (status_v1 jobId)))
            (fun _ => call remote (Get (status_legacy jobId))).

Definition resultEndpoints (jobId : value) : list string :=
  [ status_v1 jobId ++ "/result";
    status_v1 jobId ++ "/download";
    status_legacy jobId ++ "/result";
    status_legacy jobId ++ "/download";
    status_legacy jobId ++ "/content";
    status_legacy jobId ++ "/parsed" ].

(** Lines 213-236: the loop over the result endpoints, with [documentData]
    as it stands; the result is [foundResult] and [documentData]. A
    [null] body is assigned before [Object.keys] throws on it. *)
Fixpoint try_endpoints (endpoints : list string) (documentData : value)
  : M (bool * value) :=
  match endpoints with
  | [] => ret (false, documentData)
  | endpoint :: rest =>
      r <- attempt (call remote (Get endpoint)) ;;
      match r with
      | inl data =>
          match data with
          | VNull => try_endpoints rest data
          | _ => ret (true, data)
          end
      | inr _ => try_endpoints rest documentData
      end
  end.

(** Lines 238-273: one more status check, v1 then the other path, and the
    status response itself when both throw. *)
Definition fresh_status (jobId statusData : value) : M value :=
  try_catch (call remote (Get (status_v1 jobId)))
    (fun _ => try_catch (call remote (Get (status_legacy jobId)))
                (fun _ => ret statusData)).

(** Lines 190-274: [documentData], from the status response or, when it
    shows no result, from the other endpoints. *)
Definition fetch_document (jobId statusData : value) : M value :=
  if negb (hasResult statusData) then
    found <- try_endpoints (resultEndpoints jobId) statusData ;;
    if negb (fst found) then fresh_status jobId statusData
    else ret (snd found)
  else ret statusData.

(** Lines 186-341: the branch of a [success] status. *)
Definition on_success (jobId statusData parsedText : value) : M ctl :=
  sleep 1000 ;;
  documentData <- fetch_document jobId statusData ;;
  object_keys documentData ;;
  let parsedText := extract parsedText documentData in
  if truthy parsedText then ret (Break parsedText) else ret (Next parsedText).

(** Lines 342-344: the branch of an [error] status. *)
Definition on_error (statusData : value) : M ctl :=
  let errorMsg :=
    match or_else (get "error" statusData) (get "message" statusData) with
    | Some m => if truthy m then m else VStr "LlamaParse parsing failed"
    | None => VStr "LlamaParse parsing failed"
    end in
  throw (Error ("LlamaParse parsing failed: " ++ to_string errorMsg)).

(** Lines 152-356: one iteration, up to [attempts++]. *)
Definition poll_once (jobId parsedText : value) : M ctl :=
  sleep 2000 ;;
  try_catch
    (statusData <- status_query jobId ;;
     status <- read "status" statusData ;;
     match classify status with
     | Success => on_success jobId statusData parsedText
     | Failed => on_error statusData
     | Pending => ret (Next parsedText)
     | Unknown => ret (Next parsedText)
     end)
    (fun pollError =>
       if is404 pollError then
         throw (Error "LlamaParse job not found. The job may have expired.")
       else ret (Next parsedText)).

(** Lines 151-359: [while (attempts < maxAttempts)], by recursion on the
    iterations that are left, [maxAttempts - attempts]. The result is
    [attempts] and [parsedText] when the loop is left. *)
Fixpoint poll_loop (left : nat) (jobId : value) (attempts : nat)
                   (parsedText : value) : M (nat * value) :=
  match left with
  | 0 => ret (attempts, parsedText)
  | S left' =>
      c <- poll_once jobId parsedText ;;
      match c with
      | Break text => ret (attempts, text)
      | Next text => poll_loop left' jobId (S attempts) text
      end
  end.

(** Lines 370-384: the error that the outer [catch] throws instead. *)
Definition wrap (error : js_error) : js_error :=
  let errorMessage := "Failed to parse document with LlamaParse" in
  let data :=
    match response error with
    | Some r => resp_data r
    | None => VNull
    end in
  if truthy data then Error (errorMessage ++ ": " ++ stringify data)
  else if negb (message error =? "") then
    Error (errorMessage ++ ": " ++ message error)
  else Error errorMessage.

(** Lines 102-369: the body of the outer [try]. The [Upload] request stands
    for building the form from the file and posting it. *)
Definition parse_body (filePath : string) : M value :=
  let textContent := readTextFile filePath in
  if truthy textContent then ret textContent
  else
    data <- call remote (Upload LLAMAPARSE_API_URL filePath) ;;
    id <- read "id" data ;;
    job_id <- read "job_id" data ;;
    match or_else id job_id with
    | None =>
        throw (Error ("No job ID returned from LlamaParse. Response: "
                      ++ stringify data))
    | Some jobId =>
        if negb (truthy jobId) then
          throw (Error ("No job ID returned from LlamaParse. Response: "
                        ++ stringify data))
        else
          r <- poll_loop (maxAttempts - 0) jobId 0 (VStr "") ;;
          let attempts := fst r in
          let parsedText := snd r in
          if negb (truthy parsedText) && (maxAttempts <=? attempts)%nat then
            throw (Error "LlamaParse parsing timed out after 2 minutes")
          else if negb (truthy parsedText) then
            throw (Error "No text extracted from document")
          else ret parsedText
    end.

Definition parseDocumentWithLlamaParse (filePath : string) : M value :=
  try_catch (parse_body filePath) (fun error => throw (wrap error)).

End LlamaParse.

(** ** [summarizeWithGemini] *)

Definition modelNames : list string :=
  ["gemini-1.5-flash"; "gemini-1.5-pro"; "gemini-pro"].

(** The template literal of lines 390-399. *)
Definition make_prompt (text targetLanguage : string) : string :=
  "Please summarize the following health document in " ++ targetLanguage ++ ". " ++ nl
  ++ "    Provide a clear, comprehensive summary that includes:" ++ nl
  ++ "    1. Main health information and findings" ++ nl
  ++ "    2. Important recommendations or instructions" ++ nl
  ++ "    3. Any critical details that the patient should know" ++ nl
  ++ "    " ++ nl
  ++ "    Document content:" ++ nl
  ++ "    " ++ text ++ nl
  ++ "    " ++ nl
  ++ "    Please provide the summary in " ++ targetLanguage ++ ".".

(** [x?.k]. *)
Definition opt (k : string) (x : option value) : option value :=
  match x with
  | Some VNull | None => None
  | Some v => get k v
  end.

(** [x?.[0]]. *)
Definition opt0 (x : option value) : option value :=
  match x with
  | Some (VArr (first :: _)) => Some first
  | Some (VObj fs) => assoc "0" fs
  | Some (VStr (String c _)) => Some (VStr (String c EmptyString))
  | _ => None
  end.

(** [restResponse.data?.candidates?.[0]?.content?.parts?.[0]?.text]. *)
Definition rest_text (data : value) : option value :=
  opt "text" (opt0 (opt "parts" (opt "content" (opt0 (opt "candidates" (Some data)))))).

(** The test of line 417 on [modelError.message]. *)
Definition model_not_found (modelError : js_error) : bool :=
  includes "404" (message modelError) || includes "not found" (message modelError).

Section Gemini.

Variable remote : nat -> request -> reply.
Variable GEMINI_API_KEY : string.

Definition rest_url : string :=
  "https://generativelanguage.googleapis.com/v1beta/models/gemini-pro:generateContent?key="
  ++ GEMINI_API_KEY.

Definition rest_body (prompt : string) : value :=
  VObj [("contents",
         VArr [VObj [("parts", VArr [VObj [("text", VStr prompt)]])]])].

(** Lines 405-423: the loop over the model names. A [Generate] request
    stands for [getGenerativeModel], [generateContent] and
    [response.text()]; its reply carries the text. The result is
    [summary] when the loop is left. *)
Fixpoint try_models (names : list string) (prompt : string) (summary : value)
  : M value :=
  match names with
  | [] => ret summary
  | modelName :: rest =>
      r <- attempt (call remote (Generate modelName prompt)) ;;
      match r with
      | inl text => ret text
      | inr modelError =>
          if model_not_found modelError then try_models rest prompt summary
          else throw modelError
      end
  end.

Definition summarizeWithGemini (text targetLanguage : string) : M value :=
  try_catch
    (let prompt := make_prompt text targetLanguage in
     summary <- try_models modelNames prompt VNull ;;
     if negb (truthy summary) then
       data <- call remote (Post rest_url (rest_body prompt)) ;;
       match rest_text data with
       | Some t =>
           if truthy t then ret t
           else throw (Error "Failed to get response from Gemini API")
       | None => throw (Error "Failed to get response from Gemini API")
       end
     else ret summary)
    (fun error => throw error).

End Gemini.

(** ** The route [POST /api/process-document] (lines 460-543) *)

(** [languageMap] of lines 60-81: its own properties, in order. *)
Definition languageMap : list (string * string) :=
  [ ("English", "English"); ("Spanish", "Spanish");
    ("Chinese (Mandarin)", "Chinese (Mandarin)"); ("Tagalog", "Tagalog");
    ("Vietnamese", "Vietnamese"); ("Arabic", "Arabic"); ("French", "French");
    ("Korean", "Korean"); ("Russian", "Russian"); ("German", "German");
    ("Hindi", "Hindi"); ("Portuguese", "Portuguese"); ("Italian", "Italian");
    ("Japanese", "Japanese"); ("Urdu", "Urdu"); ("Polish", "Polish");
    ("Persian", "Persian"); ("Turkish", "Turkish"); ("Greek", "Greek");
    ("Hebrew", "Hebrew") ].

Fixpoint own (k : string) (table : list (string * string)) : option string :=
  match table with
  | [] => None
  | (k', v) :: rest => if k =? k' then Some v else own k rest
  end.

(** The names that an object literal inherits from [Object.prototype]: a
    read of one of them finds a function (an object for [__proto__]), which
    is truthy. *)
Definition object_prototype_names : list string :=
  [ "constructor"; "__defineGetter__"; "__defineSetter__"; "hasOwnProperty";
    "__lookupGetter__"; "__lookupSetter__"; "isPrototypeOf";
    "propertyIsEnumerable"; "toString"; "valueOf"; "__proto__";
    "toLocaleString" ].

Definition inherited (k : string) : bool :=
  existsb (String.eqb k) object_prototype_names.

(** The value of [targetLanguage]: a string, or an inherited member of the
    table. *)
Inductive target : Type :=
| Text (s : string)
| Member (name : string).

(** [languageMap[language] || language]. *)
Definition target_of (language : string) : target :=
  match own language languageMap with
  | Some v => if v =? "" then Text language else Text v
  | None => if inherited language then Member language else Text language
  end.

(** The white space that [String.prototype.trim] removes, among the
    characters of one code unit below 256. *)
Definition is_space (c : ascii) : bool :=
  let n := nat_of_ascii c in
  ((9 <=? n) && (n <=? 13))%nat || (n =? 32)%nat || (n =? 160)%nat.

Fixpoint trimStart (s : string) : string :=
  match s with
  | EmptyString => EmptyString
  | String c rest => if is_space c then trimStart rest else s
  end.

Fixpoint trimEnd (s : string) : string :=
  match s with
  | EmptyString => EmptyString
  | String c rest =>
      match trimEnd rest with
      | EmptyString => if is_space c then EmptyString else String c EmptyString
      | kept => String c kept
      end
  end.

(** [s.trim()]. *)
Definition trim (s : string) : string := trimEnd (trimStart s).

(** [res.status(code).json(body)]; [res.json(body)] has the code 200. *)
Record answer : Type := { code : Z; body : value }.

(** An object literal as [JSON.stringify] sends it: a property whose value
    is [undefined] is left out. *)
Fixpoint json_object (props : list (string * option value)) : list (string * value) :=
  match props with
  | [] => []
  | (k, Some v) :: rest => (k, v) :: json_object rest
  | (_, None) :: rest => json_object rest
  end.

Section Route.

Variable remote : nat -> request -> reply.
Variable extname : string -> string.
Variable readFileSync : string -> option string.
Variable GEMINI_API_KEY : string.

(** [fs.existsSync]: whether the upload is in storage while the route
    runs. *)
Variable existsSync : string -> bool.

(** [process.env.NODE_ENV], and [error.stack]. *)
Variable NODE_ENV : option string.
Variable stack : js_error -> string.

(** What a template literal prints for an inherited member, and what
    [res.json] keeps of it (nothing for a function). *)
Variable member_text : string -> string.
Variable member_json : string -> option value.

Definition target_text (t : target) : string :=
  match t with
  | Text s => s
  | Member name => member_text name
  end.

Definition target_json (t : target) : option value :=
  match t with
  | Text s => Some (VStr s)
  | Member name => member_json name
  end.

(** [fs.unlinkSync(p)]: it throws when there is no such file. *)
Definition unlinkSync (p : string) : M unit :=
  if existsSync p then ret tt
  else throw (Error ("ENOENT: no such file or directory, unlink '" ++ p ++ "'")).

(** Lines 498-520, with [parsedText] set: the answer of the route, and
    whether the upload was removed. *)
Definition summarize_and_reply (filePath : string) (targetLanguage : target)
           (parsedText : value) : M (answer * bool) :=
  let no_text :=
    {| code := 500;
       body := VObj [("error", VStr "Failed to parse document");
                     ("message", VStr "No text content extracted from the document")] |} in
  match parsedText with
  | VStr text =>
      if negb (truthy parsedText) || (String.length (trim text) =? 0)%nat
      then ret (no_text, false)
      else
        summary <- summarizeWithGemini remote GEMINI_API_KEY text
                     (target_text targetLanguage) ;;
        unlinkSync filePath ;;
        ret ({| code := 200;
                body := VObj (json_object
                                [("success", Some (VBool true));
                                 ("summary", Some summary);
                                 ("originalLanguage", Some (VStr "English"));
                                 ("targetLanguage", target_json targetLanguage)]) |},
             true)
  | _ =>
      if negb (truthy parsedText) then ret (no_text, false)
      else throw (Error "parsedText.trim is not a function")
  end.

(** Lines 462-520: the body of the [try]. *)
Definition route_body (file language : option string) : M (answer * bool) :=
  match file with
  | None =>
      ret ({| code := 400; body := VObj [("error", VStr "No file uploaded")] |},
           false)
  | Some filePath =>
      match language with
      | None | Some EmptyString =>
          ret ({| code := 400;
                  body := VObj [("error", VStr "Language not specified")] |},
               false)
      | Some language =>
          let targetLanguage := target_of language in
          r <- attempt (parseDocumentWithLlamaParse remote extname readFileSync filePath) ;;
          match r with
          | inl parsedText => summarize_and_reply filePath targetLanguage parsedText
          | inr parseError =>
              let textContent := readTextFile extname readFileSync filePath in
              if truthy textContent then
                summarize_and_reply filePath targetLanguage textContent
              else
                ret ({| code := 500;
                        body := VObj
                          [("error", VStr "Failed to parse document with LlamaParse");
                           ("message", VStr (message parseError));
                           ("suggestion",
                            VStr "LlamaParse API may be experiencing issues. Try again in a moment, or use a .txt file for direct processing.")] |},
                     false)
          end
      end
  end.

(** Lines 461-543: the handler. The [catch] removes the upload when it is
    still in storage, and answers with the message of the error. *)
Definition process_document (file language : option string) : M (answer * bool) :=
  try_catch (route_body file language)
    (fun error =>
       let removed :=
         match file with
         | Some filePath => existsSync filePath
         | None => false
         end in
       let errorMessage :=
         if message error =? "" then "Unknown error occurred" else message error in
       ret ({| code := 500;
               body := VObj (json_object
                               [("error", Some (VStr "Failed to process document"));
                                ("message", Some (VStr errorMessage));
                                ("details",
                                 match NODE_ENV with
                                 | Some "development" => Some (VStr (stack error))
                                 | _ => None
                                 end)]) |},
            removed)).

End Route.

(** ** The page: [handleSubmit] of [App.jsx] (lines 66-116) *)

(** The state of the component that [handleSubmit] reads and sets: the file
    and the language that were chosen, and what the page shows. [None] is
    [null] or [undefined]. *)
Record page : Type :=
  { selectedFile : option string;
    selectedLanguage : option string;
    isLoading : bool;
    shown_summary : option value;
    shown_error : option string }.

(** What [fetch] gives: it rejects with an error (its [name] and
    [message]), or it resolves with a response, whose body [response.json()]
    parses ([None] when the body is not JSON). *)
Inductive fetched : Type :=
| Rejected (name message : string)
| Responded (ok : bool) (status : Z) (statusText : string) (json : option value).

(** Lines 105-112: the message that the [catch] shows for an error. *)
Definition shown_for (name message : string) : string :=
  let errorMessage :=
    if message =? "" then "An error occurred while processing the document"
    else message in
  if (name =? "TypeError") && includes "fetch" message then
    "Cannot connect to server. Please make sure the server is running on http://localhost:3001"
  else errorMessage.

(** Lines 92-100: the message of the error thrown for a response that is
    not ok. Reading [errorData.error] of [null] throws inside the [try], as
    a body that is not JSON does. *)
Definition failure_message (status : Z) (statusText : string)
           (json : option value) : string :=
  match json with
  | None | Some VNull => "Server error: " ++ dec status ++ " " ++ statusText
  | Some errorData =>
      match or_else (get "error" errorData) (get "message" errorData) with
      | Some m => if truthy m then to_string m else "Failed to process document"
      | None => "Failed to process document"
      end
  end.

Section Page.

(** [fetch] of the route, for the file and the language of the form. *)
Variable fetch : string -> string -> fetched.

(** The message of the error of [response.json()] on a body that is not
    JSON. *)
Variable syntax_error : string.

(** The state after [handleSubmit] has run to its end. *)
Definition handleSubmit (p : page) : page :=
  match selectedFile p with
  | None =>
      {| selectedFile := selectedFile p; selectedLanguage := selectedLanguage p;
         isLoading := isLoading p; shown_summary := shown_summary p;
         shown_error := Some "Please select a file first" |}
  | Some file =>
      match selectedLanguage p with
      | None | Some EmptyString =>
          {| selectedFile := selectedFile p; selectedLanguage := selectedLanguage p;
             isLoading := isLoading p; shown_summary := shown_summary p;
             shown_error := Some "Please select a language first" |}
      | Some language =>
          let outcome :=
            match fetch file language with
            | Rejected name message => inr (name, message)
            | Responded ok status statusText json =>
                if negb ok then
                  inr ("Error", failure_message status statusText json)
                else
                  match json with
                  | None => inr ("SyntaxError", syntax_error)
                  | Some VNull =>
                      inr ("TypeError",
                           "Cannot read properties of null (reading 'summary')")
                  | Some data => inl (get "summary" data)
                  end
            end in
          match outcome with
          | inl summary =>
              {| selectedFile := selectedFile p;
                 selectedLanguage := selectedLanguage p;
                 isLoading := false; shown_summary := summary;
                 shown_error := None |}
          | inr (name, message) =>
              {| selectedFile := selectedFile p;
                 selectedLanguage := selectedLanguage p;
                 isLoading := false; shown_summary := None;
                 shown_error := Some (shown_for name message) |}
          end
      end
  end.

End Page.

(** The response that the page receives for an answer of the route. *)
Definition served (statusText : string) (a : answer) : fetched :=
  Responded ((200 <=? code a)%Z && (code a <? 300)%Z) (code a) statusText
            (Some (body a)).

(** ** Reference definitions, in the words of the specification *)

(** Every scalar string that sits under a field (or in a sequence) of the
    response tree, depth-first, in enumeration order. *)
Fixpoint strings_dfs (tree : value) : list string :=
  match tree with
  | VArr l =>
      flat_map (fun x => match x with VStr s => [s] | _ => strings_dfs x end) l
  | VObj fs =>
      flat_map (fun '(_, x) => match x with VStr s => [s] | _ => strings_dfs x end) fs
  | _ => []
  end.

(** The first of them that is longer than the threshold of 100 characters. *)
Definition first_long_string (tree : value) : option string :=
  find (fun s => (100 <? String.length s)%nat) (strings_dfs tree).

Definition nonempty_text (x : option value) : option string :=
  match x with
  | Some (VStr s) => if s =? "" then None else Some s
  | _ => None
  end.

Fixpoint first_some (candidates : list (option string)) : option string :=
  match candidates with
  | [] => None
  | Some s :: _ => Some s
  | None :: rest => first_some rest
  end.

(** A field that holds the text itself or, one level down, a mapping with
    [markdown], [text] or [content]. *)
Definition one_level (x : option value) : option string :=
  match x with
  | Some (VObj fs) =>
      first_some [ nonempty_text (assoc "markdown" fs);
                   nonempty_text (assoc "text" fs);
                   nonempty_text (assoc "content" fs) ]
  | _ => nonempty_text x
  end.

(** The precedence list of the specification: the first match wins. *)
Definition resolve_by_precedence (payload : value) : option string :=
  first_some [ nonempty_text (get "markdown" payload);
               nonempty_text (get "text" payload);
               nonempty_text (get "content" payload);
               nonempty_text (get "parsed_content" payload);
               one_level (get "result" payload);
               one_level (get "data" payload);
               one_level (get "document" payload);
               nonempty_text (Some payload) ].

(** A status string, compared without regard to case. *)
Definition normalize_case_insensitive (status : string) : job_status :=
  let s := toLowerCase status in
  if s =? "success" then Success
  else if s =? "error" then Failed
  else if s =? "pending" then Pending
  else Unknown.

(** The field names of the precedence list, in order. *)
Definition precedence : list string :=
  ["markdown"; "text"; "content"; "parsed_content"; "result"; "data"; "document"].

(** The error that [parseDocumentWithLlamaParse] throws for a cause. *)
Definition parse_failure (cause : string) : js_error :=
  Error ("Failed to parse document with LlamaParse: " ++ cause).

Definition timed_out : js_error :=
  parse_failure "LlamaParse parsing timed out after 2 minutes".

Definition job_not_found : js_error :=
  Error "LlamaParse job not found. The job may have expired.".

(** [n] applications of a state change. *)
Fixpoint repeat_step (n : nat) (step : state -> state) (s : state) : state :=
  match n with
  | 0 => s
  | S n' => repeat_step n' step (step s)
  end.

(** The body of the [for..in] loop of [findTextInObject] at one element,
    and the two forms of the loop; [findTextInObject] unfolds to them. *)
Definition visit (v later : value) : value :=
  match v with
  | VStr s => if (100 <? String.length s)%nat then v else later
  | VArr _ | VObj _ =>
      let found := findTextInObject v in
      if truthy found then found else later
  | _ => later
  end.

Fixpoint scan_values (vs : list value) : value :=
  match vs with
  | [] => VNull
  | v :: rest => visit v (scan_values rest)
  end.

Fixpoint scan_fields (kvs : list (string * value)) : value :=
  match kvs with
  | [] => VNull
  | (_, v) :: rest => visit v (scan_fields rest)
  end.

Definition as_value (found : option string) : value :=
  match found with
  | Some s => VStr s
  | None => VNull
  end.

(** What an iteration hands to the loop: [break] only with a text, and a
    fall-through only without one. *)
Definition ctl_sound (c : ctl) : Prop :=
  match c with
  | Break text => truthy text = true
  | Next text => truthy text = false
  end.

(** The trace of one iteration that only queries the status, and of one
    that finds a [success] status whose response shows the result. *)
Definition quiet_iteration (jobId : value) (s : state) : state :=
  called (Get (status_v1 jobId)) (record (Sleep 2000) s).

Definition success_iteration (jobId : value) (s : state) : state :=
  record (Sleep 1000) (quiet_iteration jobId s).

(** The state after [generateContent] was called for each of [names]. *)
Definition generated (names : list string) (prompt : string) (s : state) : state :=
  fold_left (fun s0 name => called (Generate name prompt) s0) names s.

(** Every model of [names] fails with an error of the not-found class, from
    the call number [first] on. *)
Definition all_not_found (remote : nat -> request -> reply) (names : list string)
           (prompt : string) (first : nat) : Prop :=
  forall j name,
    nth_error names j = Some name ->
    exists e, remote (first + j) (Generate name prompt) = Fault e
              /\ model_not_found e = true.

(** ** Scenarios *)

(** An upload that is not a text file. *)
Definition pdf_extname (filePath : string) : string := ".pdf".
Definition unread (filePath : string) : option string := None.

Definition job_reply : value := VObj [("id", VStr "job-1")].
Definition job1 : value := VStr "job-1".

(** A service that accepts the upload and answers every query with the same
    body. *)
Definition fixed_status (body : value) (n : nat) (r : request) : reply :=
  match r with
  | Upload _ _ => Reply job_reply
  | Get _ => Reply body
  | _ => Fault (Error "Network Error")
  end.

Definition pending_body : value := VObj [("status", VStr "pending")].

Definition error_body : value :=
  VObj [("status", VStr "error"); ("error", VStr "Unsupported file type")].

Definition hollow_body : value :=
  VObj [("status", VStr "SUCCESS"); ("result", VObj [("pages", VArr [])])].

Definition nested_content_body : value :=
  VObj [("status", VStr "success");
        ("data", VObj [("content", VStr "Blood pressure 120/80")])].

Definition text150 : string :=
  String.concat "" (repeat "Rest and fluids. " 8) ++ "See you in May".

Definition nested_payload : value :=
  VObj [("status", VStr "SUCCESS"); ("job", VObj [("pages_text", VStr text150)])].

Definition not_found_fault : js_error :=
  {| message := "Request failed with status code 404";
     response := Some {| resp_status := 404;
                         resp_data := VObj [("detail", VStr "Not Found")] |} |}.

Definition gateway_fault : js_error :=
  {| message := "Request failed with status code 502";
     response := Some {| resp_status := 502; resp_data := VStr "" |} |}.

(** A service that accepts the upload and then fails every query. *)
Definition failing_status (e : js_error) (n : nat) (r : request) : reply :=
  match r with
  | Upload _ _ => Reply job_reply
  | _ => Fault e
  end.

(** A service whose upload response names no job. *)
Definition no_job (n : nat) (r : request) : reply :=
  match r with
  | Upload _ _ => Reply (VObj [("status", VStr "accepted")])
  | _ => Fault (Error "Network Error")
  end.

Definition rest_reply (text : string) : value :=
  VObj [("candidates",
         VArr [VObj [("content",
                      VObj [("parts", VArr [VObj [("text", VStr text)]])])]])].

Definition model_missing : js_error :=
  Error "[404 Not Found] models/gemini-1.5-flash is not found for API version v1beta".

Definition quota_exceeded : js_error :=
  Error "[429 Too Many Requests] Resource has been exhausted".

(** The first model answers with an empty text; the REST endpoint answers. *)
Definition empty_then_rest (n : nat) (r : request) : reply :=
  match r with
  | Generate _ _ => Reply (VStr "")
  | Post _ _ => Reply (rest_reply "Resumen del documento")
  | _ => Fault (Error "Network Error")
  end.

(** The first model is missing, the second answers. *)
Definition second_model_answers (n : nat) (r : request) : reply :=
  match n, r with
  | 0, Generate _ _ => Fault model_missing
  | 1, Generate _ _ => Reply (VStr "Resumen del documento")
  | _, _ => Fault (Error "Network Error")
  end.

(** Every model is missing; the REST endpoint answers. *)
Definition only_rest_answers (n : nat) (r : request) : reply :=
  match r with
  | Generate _ _ => Fault model_missing
  | Post _ _ => Reply (rest_reply "Resumen del documento")
  | _ => Fault (Error "Network Error")
  end.

(** The first model answers with an empty text, the other models and the
    REST endpoint are ready to answer. *)
Definition first_empty_second_ready (n : nat) (r : request) : reply :=
  match n, r with
  | 0, Generate _ _ => Reply (VStr "")
  | _, Generate _ _ => Reply (VStr "Summary of a later model")
  | _, Post _ _ => Reply (rest_reply "Resumen del documento")
  | _, _ => Fault (Error "Network Error")
  end.

(** The first model is missing, the second is out of quota, and whatever is
    asked after it would answer. *)
Definition quota_on_second (n : nat) (r : request) : reply :=
  match n, r with
  | 0, Generate _ _ => Fault model_missing
  | 1, Generate _ _ => Fault quota_exceeded
  | _, Generate _ _ => Reply (VStr "Summary of a later model")
  | _, Post _ _ => Reply (rest_reply "Resumen del documento")
  | _, _ => Fault (Error "Network Error")
  end.

Definition forbidden : js_error :=
  {| message := "Request failed with status code 403";
     response := Some {| resp_status := 403;
                         resp_data := VObj [("error", VStr "API key not valid")] |} |}.

(** Every model is missing, and the REST request is refused. *)
Definition rest_refused (n : nat) (r : request) : reply :=
  match r with
  | Generate _ _ => Fault model_missing
  | _ => Fault forbidden
  end.

(** Every model is missing, and the REST endpoint answers without a
    candidate. *)
Definition rest_without_text (n : nat) (r : request) : reply :=
  match r with
  | Generate _ _ => Fault model_missing
  | Post _ _ => Reply (VObj [("candidates", VArr [])])
  | _ => Fault (Error "Network Error")
  end.

(** ** Measures of a run *)

(** The polling delays in a trace. *)
Fixpoint polls (t : list event) : nat :=
  match t with
  | [] => 0
  | Sleep 2000 :: rest => S (polls rest)
  | _ :: rest => polls rest
  end.

(** A computation that makes at most [k] remote calls and waits for at
    most [p] polling delays, from every state. *)
Definition within {A} (k p : nat) (m : M A) : Prop :=
  forall s,
    calls (snd (m s)) <= calls s + k
    /\ polls (trace (snd (m s))) <= polls (trace s) + p.

(** The state after a [GET] of each of [urls]. *)
Definition queried (urls : list string) (s : state) : state :=
  fold_left (fun s0 url => called (Get url) s0) urls s.

(** A reader for a text file with the given content, under an upper-case
    extension. *)
Definition txt_extname (filePath : string) : string := ".TXT".
Definition reads (content : string) (filePath : string) : option string :=
  Some content.

(** A service whose upload fails with the answer of the server. *)
Definition rejected : js_error :=
  {| message := "Request failed with status code 401";
     response := Some {| resp_status := 401;
                         resp_data := VObj [("detail", VStr "Invalid API key")] |} |}.

Definition upload_rejected (n : nat) (r : request) : reply := Fault rejected.

(** A job that is pending twice and then succeeds with its text. *)
Definition done_body : value :=
  VObj [("status", VStr "SUCCESS"); ("markdown", VStr "# Lab report")].

Definition pending_twice (n : nat) (r : request) : reply :=
  match r with
  | Upload _ _ => Reply job_reply
  | Get _ => if (n <? 3)%nat then Reply pending_body else Reply done_body
  | _ => Fault (Error "Network Error")
  end.

(** An endpoint of [urls], at its position, fails or answers [null]. *)
Definition all_unusable (remote : nat -> request -> reply) (urls : list string)
           (first : nat) : Prop :=
  forall j url,
    nth_error urls j = Some url ->
    remote (first + j) (Get url) = Reply VNull
    \/ exists e, remote (first + j) (Get url) = Fault e.

(** A status response without a result field; the second result endpoint
    holds the text. *)
Definition bare_success : value := VObj [("status", VStr "SUCCESS")].

Definition second_endpoint_answers (n : nat) (r : request) : reply :=
  match n, r with
  | 0, Get _ => Fault not_found_fault
  | 1, Get _ => Reply (VObj [("markdown", VStr "# Lab report")])
  | _, _ => Fault (Error "Network Error")
  end.

(** ** Answers of the route *)

(** A success carries a non-empty summary and the upload is gone; a failure
    carries a title under [error]. *)
Definition well_formed (a : answer) (removed : bool) : Prop :=
  (code a = 200%Z
   /\ removed = true
   /\ get "success" (body a) = Some (VBool true)
   /\ exists summary, get "summary" (body a) = Some summary
                      /\ truthy summary = true)
  \/ ((code a = 400%Z \/ code a = 500%Z)
      /\ exists title, get "error" (body a) = Some (VStr title) /\ title <> "").

Definition parse_failed (message : string) : answer :=
  {| code := 500;
     body := VObj
       [("error", VStr "Failed to parse document with LlamaParse");
        ("message", VStr message);
        ("suggestion",
         VStr "LlamaParse API may be experiencing issues. Try again in a moment, or use a .txt file for direct processing.")] |}.

Definition no_text_extracted : answer :=
  {| code := 500;
     body := VObj [("error", VStr "Failed to parse document");
                   ("message", VStr "No text content extracted from the document")] |}.

(** The answer of the [catch] of the route, outside development mode. *)
Definition processing_failed (message : string) : answer :=
  {| code := 500;
     body := VObj [("error", VStr "Failed to process document");
                   ("message", VStr message)] |}.

Definition summarized (summary : value) (targetLanguage : string) : answer :=
  {| code := 200;
     body := VObj [("success", VBool true);
                   ("summary", summary);
                   ("originalLanguage", VStr "English");
                   ("targetLanguage", VStr targetLanguage)] |}.

Definition stored (filePath : string) : bool := true.
Definition no_stack (e : js_error) : string := "".
Definition no_member_text (name : string) : string := "".
Definition no_member_json (name : string) : option value := None.

(** A text file that holds white space only. *)
Definition blank_text : string := "  " ++ nl ++ "  ".

(** A job that succeeds with a number where the text should be. *)
Definition number_body : value :=
  VObj [("status", VStr "success"); ("markdown", VNum 42)].

(** The parser answers with the text at once, and the first model
    summarizes it. *)
Definition all_answer (n : nat) (r : request) : reply :=
  match r with
  | Upload _ _ => Reply job_reply
  | Get _ => Reply done_body
  | Generate _ _ => Reply (VStr "Resumen del documento")
  | Post _ _ => Fault (Error "Network Error")
  end.

(** The parser answers, and the summarization service is out of quota. *)
Definition quota_after_parse (n : nat) (r : request) : reply :=
  match r with
  | Upload _ _ => Reply job_reply
  | Get _ => Reply done_body
  | _ => Fault quota_exceeded
  end.

(** A page on which a file and a language were chosen. *)
Definition ready_page : page :=
  {| selectedFile := Some "scan.pdf"; selectedLanguage := Some "Spanish";
     isLoading := false; shown_summary := None; shown_error := None |}.

(** * Properties *)

(** ** Induction on JSON trees *)

Section value_induction.

Variable P : value -> Prop.
Hypothesis Hnull : P VNull.
Hypothesis Hbool : forall b, P (VBool b).
Hypothesis Hnum : forall n, P (VNum n).
Hypothesis Hstr : forall s, P (VStr s).
Hypothesis Harr : forall l, Forall P l -> P (VArr l).
Hypothesis Hobj : forall fs, Forall (fun kv => P (snd kv)) fs -> P (VObj fs).

Fixpoint value_tree_ind (v : value) : P v :=
  match v with
  | VNull => Hnull
  | VBool b => Hbool b
  | VNum n => Hnum n
  | VStr s => Hstr s
  | VArr l =>
      Harr l ((fix all (l : list value) : Forall P l :=
                 match l with
                 | [] => Forall_nil _
                 | x :: rest => Forall_cons _ (value_tree_ind x) (all rest)
                 end) l)
  | VObj fs =>
      Hobj fs ((fix all (fs : list (string * value))
                  : Forall (fun kv => P (snd kv)) fs :=
                  match fs with
                  | [] => Forall_nil _
                  | (k, x) :: rest =>
                      Forall_cons (k, x) (value_tree_ind x) (all rest)
                  end) fs)
  end.

End value_induction.

(** ** The search for a long string *)

Lemma findText_arr l : findTextInObject (VArr l) = scan_values l.
Proof. induction l as [|x l IH]; [reflexivity|]. simpl in *. now rewrite IH. Qed.

Lemma findText_obj fs : findTextInObject (VObj fs) = scan_fields fs.
Proof.
  induction fs as [|[k x] fs IH]; [reflexivity|]. simpl in *. now rewrite IH.
Qed.

Lemma find_app {A} (p : A -> bool) (a b : list A) :
  find p (a ++ b) = match find p a with Some x => Some x | None => find p b end.
Proof. induction a as [|x a IH]; simpl; [reflexivity|]. now destruct (p x). Qed.

Lemma long_nonempty s : (100 <? String.length s)%nat = true -> truthy (VStr s) = true.
Proof. destruct s; simpl; [discriminate | reflexivity]. Qed.

Lemma truthy_as_value found :
  (forall s, found = Some s -> (100 <? String.length s)%nat = true) ->
  truthy (as_value found) = match found with Some _ => true | None => false end.
Proof.
  intros H. destruct found as [s|]; simpl; [|reflexivity].
  apply (long_nonempty s), H. reflexivity.
Qed.

Lemma visit_spec v later rest :
  findTextInObject v = as_value (first_long_string v) ->
  later = as_value (find (fun s => (100 <? String.length s)%nat) rest) ->
  visit v later =
  as_value (find (fun s => (100 <? String.length s)%nat)
              (match v with VStr s => [s] | _ => strings_dfs v end ++ rest)).
Proof.
  intros Hv Hl. rewrite find_app.
  assert (Hlong : forall s, first_long_string v = Some s ->
                            (100 <? String.length s)%nat = true).
  { intros s Hs. apply find_some in Hs. apply Hs. }
  destruct v; unfold visit; cbv beta iota zeta;
    try (simpl find; assumption).
  - simpl find. destruct (100 <? String.length s)%nat; [reflexivity | assumption].
  - fold (first_long_string (VArr items)).
    rewrite Hv, (truthy_as_value _ Hlong).
    destruct (first_long_string (VArr items)); [reflexivity | assumption].
  - fold (first_long_string (VObj fields)).
    rewrite Hv, (truthy_as_value _ Hlong).
    destruct (first_long_string (VObj fields)); [reflexivity | assumption].
Qed.

(** [findTextInObject] returns the first long string of the tree in
    depth-first order, and [null] when there is none. *)
Lemma findText_first_long v :
  findTextInObject v = as_value (first_long_string v).
Proof.
  induction v using value_tree_ind; try reflexivity.
  - rewrite findText_arr. unfold first_long_string. simpl strings_dfs.
    induction H as [|x l Hx Hl IH]; [reflexivity|].
    simpl. apply visit_spec; assumption.
  - rewrite findText_obj. unfold first_long_string. simpl strings_dfs.
    induction H as [|[k x] l Hx Hl IH]; [reflexivity|].
    simpl. apply visit_spec; assumption.
Qed.

(** ** Serialization never yields the empty string *)

Lemma dec_nonempty n : truthy (VStr (dec n)) = true.
Proof.
  unfold dec. destruct (Z.to_int n) as [d|d]; [|reflexivity].
  destruct d; reflexivity.
Qed.

Lemma stringify_indent_nonempty indent v :
  truthy (VStr (stringify_indent indent v)) = true.
Proof.
  destruct v as [|[|]|n|s|[|x l]|[|kv fs]]; try reflexivity.
  apply dec_nonempty.
Qed.

(** ** The precedence chain *)

Lemma field_get_none k d : get k d = None -> field k d = None.
Proof. unfold field. now intros ->. Qed.

Lemma field_get_empty k d : get k d = Some (VStr "") -> field k d = None.
Proof. unfold field. now intros ->. Qed.

Lemma field_get_text k d s :
  get k d = Some (VStr s) -> s <> "" -> field k d = Some (VStr s).
Proof.
  unfold field. intros -> Hs. simpl.
  destruct (String.eqb_spec s ""); [contradiction | reflexivity].
Qed.

Lemma field_truthy k d v : field k d = Some v -> truthy v = true.
Proof.
  unfold field. destruct (get k d) as [x|]; [|discriminate].
  destruct (truthy x) eqn:E; [|discriminate]. now intros [= <-].
Qed.

(** With no recognized field, and a payload that is not itself a string,
    the chain reaches its last branch. *)
Lemma extract_fallback parsedText payload :
  (forall k, In k precedence -> field k payload = None) ->
  (forall s, payload <> VStr s) ->
  extract parsedText payload =
  let found := findTextInObject payload in
  if truthy found then found else VStr (stringify2 payload).
Proof.
  intros Hnone Hstr. unfold extract.
  repeat (rewrite Hnone; [|simpl; tauto]).
  destruct payload; try reflexivity. now destruct (Hstr s).
Qed.

(** C3. When the payload holds no recognized field, extraction returns the
    first string longer than 100 characters that a depth-first walk of the
    response tree meets, in enumeration order; when there is none it returns
    the serialization of the whole tree. Either way the text is non-empty, so
    the iteration leaves the loop with it instead of failing. In particular a
    150-character string nested at depth 2 is returned as it is. *)
Theorem C3_unstructured_extraction :
  forall (parsedText payload : value),
    (forall k, In k precedence -> field k payload = None) ->
    (forall s, payload <> VStr s) ->
    extract parsedText payload =
      match first_long_string payload with
      | Some s => VStr s
      | None => VStr (stringify2 payload)
      end
    /\ truthy (extract parsedText payload) = true
    /\ (forall remote jobId statusData s s',
          fetch_document remote jobId statusData (record (Sleep 1000) s)
            = (Ok payload, s') ->
          payload <> VNull ->
          on_success remote jobId statusData parsedText s
            = (Ok (Break (extract parsedText payload)), s'))
    /\ (forall k1 k2 s,
          payload = VObj [(k1, VObj [(k2, VStr s)])] ->
          String.length s = 150 ->
          extract parsedText payload = VStr s).
Proof.
  intros parsedText payload Hnone Hstr.
  assert (Hext : extract parsedText payload =
                 match first_long_string payload with
                 | Some s => VStr s
                 | None => VStr (stringify2 payload)
                 end).
  { rewrite (extract_fallback _ _ Hnone Hstr). cbv zeta.
    rewrite findText_first_long, truthy_as_value.
    - now destruct (first_long_string payload).
    - intros s Hs. apply find_some in Hs. apply Hs. }
  assert (Htruthy : truthy (extract parsedText payload) = true).
  { rewrite Hext. destruct (first_long_string payload) as [s|] eqn:E.
    - apply long_nonempty. apply find_some in E. apply E.
    - apply stringify_indent_nonempty. }
  split; [exact Hext|]. split; [exact Htruthy|]. split.
  - intros remote jobId statusData s s' Hfetch Hnn.
    unfold on_success, bind, sleep. rewrite Hfetch.
    destruct payload; try congruence; simpl object_keys; unfold ret;
      cbv beta iota zeta; now rewrite Htruthy.
  - intros k1 k2 s -> Hlen. rewrite Hext.
    unfold first_long_string. simpl. now rewrite Hlen.
Qed.

(** ** Remote calls *)

Section Polling.

Variable remote : nat -> request -> reply.

Lemma call_reply r s d :
  remote (calls s) r = Reply d -> call remote r s = (Ok d, called r s).
Proof. unfold call. now intros ->. Qed.

Lemma call_fault r s e :
  remote (calls s) r = Fault e -> call remote r s = (Throw e, called r s).
Proof. unfold call. now intros ->. Qed.

Lemma status_query_v1 jobId s d :
  remote (calls s) (Get (status_v1 jobId)) = Reply d ->
  status_query remote jobId s = (Ok d, called (Get (status_v1 jobId)) s).
Proof. intros H. unfold status_query, try_catch. now rewrite (call_reply _ _ _ H). Qed.

Lemma status_query_faults jobId s e1 e2 :
  remote (calls s) (Get (status_v1 jobId)) = Fault e1 ->
  remote (S (calls s)) (Get (status_legacy jobId)) = Fault e2 ->
  status_query remote jobId s
  = (Throw e2, called (Get (status_legacy jobId)) (called (Get (status_v1 jobId)) s)).
Proof.
  intros H1 H2. unfold status_query, try_catch.
  rewrite (call_fault _ _ _ H1). now apply call_fault.
Qed.

(** One iteration, once the status query has answered: the branch of the
    status, under the handler of the iteration. *)
Lemma poll_once_answered jobId parsedText s statusData s' :
  status_query remote jobId (record (Sleep 2000) s) = (Ok statusData, s') ->
  statusData <> VNull ->
  poll_once remote jobId parsedText s =
  try_catch
    (match classify (get "status" statusData) with
     | Success => on_success remote jobId statusData parsedText
     | Failed => on_error statusData
     | Pending => ret (Next parsedText)
     | Unknown => ret (Next parsedText)
     end)
    (fun pollError =>
       if is404 pollError then throw job_not_found else ret (Next parsedText)) s'.
Proof.
  intros Hq Hnn. unfold poll_once, bind, sleep, try_catch. rewrite Hq.
  destruct statusData; try congruence; reflexivity.
Qed.

(** A status that is neither success nor error leaves the iteration at
    [attempts++], with nothing thrown. *)
Lemma poll_once_transient jobId parsedText s statusData s' :
  status_query remote jobId (record (Sleep 2000) s) = (Ok statusData, s') ->
  statusData <> VNull ->
  classify (get "status" statusData) = Pending
  \/ classify (get "status" statusData) = Unknown ->
  poll_once remote jobId parsedText s = (Ok (Next parsedText), s').
Proof.
  intros Hq Hnn Hc. rewrite (poll_once_answered _ _ _ _ _ Hq Hnn).
  now destruct Hc as [-> | ->].
Qed.

(** The error thrown for an [error] status is caught by the handler of
    the iteration, which lets the loop go on. *)
Lemma poll_once_error_status jobId parsedText s statusData s' :
  status_query remote jobId (record (Sleep 2000) s) = (Ok statusData, s') ->
  statusData <> VNull ->
  classify (get "status" statusData) = Failed ->
  poll_once remote jobId parsedText s = (Ok (Next parsedText), s').
Proof.
  intros Hq Hnn Hc. rewrite (poll_once_answered _ _ _ _ _ Hq Hnn), Hc.
  reflexivity.
Qed.

(** While every iteration falls through to [attempts++], the loop runs
    for all the iterations that are left. *)
Lemma poll_loop_continues jobId text step :
  (forall s, poll_once remote jobId text s = (Ok (Next text), step s)) ->
  forall left attempts s,
    poll_loop remote left jobId attempts text s
    = (Ok (attempts + left, text), repeat_step left step s).
Proof.
  intros Hstep left. induction left as [|left IH]; intros attempts s; simpl.
  - unfold ret. now rewrite Nat.add_0_r.
  - unfold bind. rewrite Hstep, IH. now rewrite Nat.add_succ_r.
Qed.

End Polling.

(** ** What the loop returns *)

Section LoopResult.

Variable remote : nat -> request -> reply.

Lemma handler_ctl parsedText (e : js_error) s c s' :
  truthy parsedText = false ->
  (if is404 e then throw job_not_found else ret (Next parsedText)) s = (Ok c, s') ->
  ctl_sound c.
Proof.
  intros Hp. destruct (is404 e); unfold throw, ret; intros [= <- <-];
    exact Hp.
Qed.

Lemma on_success_ctl jobId statusData parsedText s c s' :
  on_success remote jobId statusData parsedText s = (Ok c, s') -> ctl_sound c.
Proof.
  unfold on_success, bind, sleep.
  destruct (fetch_document remote jobId statusData _) as [[dd|e] s1];
    [|discriminate].
  destruct (object_keys dd s1) as [[u|e] s2]; [|discriminate].
  destruct (truthy (extract parsedText dd)) eqn:E; unfold ret;
    intros [= <- <-]; exact E.
Qed.

Lemma poll_once_ctl jobId parsedText s c s' :
  truthy parsedText = false ->
  poll_once remote jobId parsedText s = (Ok c, s') -> ctl_sound c.
Proof.
  intros Hp. unfold poll_once, bind, sleep, try_catch.
  destruct (status_query remote jobId _) as [[d|e] s1];
    [|apply handler_ctl; exact Hp].
  destruct (read "status" d s1) as [[st|e] s2];
    [|apply handler_ctl; exact Hp].
  destruct (classify st).
  - destruct (on_success remote jobId d parsedText s2) as [[c'|e] s3] eqn:E.
    + intros [= <- <-]. exact (on_success_ctl _ _ _ _ _ _ E).
    + apply handler_ctl; exact Hp.
  - unfold on_error, throw. apply handler_ctl; exact Hp.
  - unfold ret. intros [= <- <-]. exact Hp.
  - unfold ret. intros [= <- <-]. exact Hp.
Qed.

(** The loop is left with a text before the budget is used up, or without
    one when it is. *)
Lemma poll_loop_result jobId left :
  forall attempts parsedText s attempts' text s',
    truthy parsedText = false ->
    poll_loop remote left jobId attempts parsedText s = (Ok (attempts', text), s') ->
    (truthy text = true /\ attempts' < attempts + left)
    \/ (truthy text = false /\ attempts' = attempts + left).
Proof.
  induction left as [|left IH]; intros attempts parsedText s attempts' text s' Hp; simpl.
  - unfold ret. intros [= <- <- <-]. right. split; [exact Hp | lia].
  - unfold bind.
    destruct (poll_once remote jobId parsedText s) as [[c|e] s1] eqn:E;
      [|discriminate].
    pose proof (poll_once_ctl _ _ _ _ _ Hp E) as Hc.
    destruct c as [t|t]; simpl in Hc.
    + unfold ret. intros [= <- <- <-]. left. split; [exact Hc | lia].
    + intros Hloop. destruct (IH _ _ _ _ _ _ Hc Hloop) as [[? ?]|[? ?]];
        [left | right]; split; try assumption; lia.
Qed.

End LoopResult.

(** ** From the loop to the result of [parseDocumentWithLlamaParse] *)

Section Job.

Variable remote : nat -> request -> reply.
Variable extname : string -> string.
Variable readFileSync : string -> option string.
Variables (filePath : string) (s : state) (data jobId : value).

(** The file is not read directly, and the upload is answered with a job
    identifier. *)
Hypothesis not_text : truthy (readTextFile extname readFileSync filePath) = false.
Hypothesis uploaded : remote (calls s) (Upload LLAMAPARSE_API_URL filePath) = Reply data.
Hypothesis answered : data <> VNull.
Hypothesis identified : or_else (get "id" data) (get "job_id" data) = Some jobId.
Hypothesis usable : truthy jobId = true.

Let polling : state := called (Upload LLAMAPARSE_API_URL filePath) s.

Ltac enter_loop :=
  unfold parseDocumentWithLlamaParse, parse_body, try_catch, bind;
  rewrite not_text, (call_reply _ _ _ _ uploaded);
  destruct data; try congruence; unfold read, ret;
  rewrite identified, usable; change (negb true) with false; cbv beta iota;
  change (maxAttempts - 0) with maxAttempts;
  fold polling.

Lemma parse_loop_throws e s' :
  poll_loop remote maxAttempts jobId 0 (VStr "") polling = (Throw e, s') ->
  parseDocumentWithLlamaParse remote extname readFileSync filePath s
  = (Throw (wrap e), s').
Proof. intros Hloop. enter_loop; now rewrite Hloop. Qed.

Lemma parse_loop_text attempts text s' :
  poll_loop remote maxAttempts jobId 0 (VStr "") polling = (Ok (attempts, text), s') ->
  truthy text = true ->
  parseDocumentWithLlamaParse remote extname readFileSync filePath s
  = (Ok text, s').
Proof.
  intros Hloop Ht. enter_loop; rewrite Hloop; cbn [fst snd];
    now rewrite Ht.
Qed.

Lemma parse_loop_empty attempts text s' :
  poll_loop remote maxAttempts jobId 0 (VStr "") polling = (Ok (attempts, text), s') ->
  truthy text = false ->
  parseDocumentWithLlamaParse remote extname readFileSync filePath s
  = (Throw timed_out, s').
Proof.
  intros Hloop Ht.
  destruct (poll_loop_result remote jobId maxAttempts 0 (VStr "") _ _ _ _
              eq_refl Hloop) as [[Hc _]|[_ Ha]]; [congruence|].
  simpl in Ha. subst attempts.
  enter_loop; rewrite Hloop; cbn [fst snd]; now rewrite Ht.
Qed.

End Job.

(** A chain that extracts nothing leaves [parsedText] as it was, or assigns
    the empty payload. *)
Lemma extract_falsy parsedText payload :
  truthy (extract parsedText payload) = false ->
  extract parsedText payload = parsedText \/ extract parsedText payload = VStr "".
Proof.
  unfold extract.
  repeat match goal with
         | |- context [match field ?k ?d with _ => _ end] =>
             let E := fresh "E" in
             destruct (field k d) as [?v|] eqn:E;
             [apply field_truthy in E|]
         | |- context [match ?v with VNull => _ | _ => _ end] => destruct v
         | |- context [if ?b then _ else _] => destruct b eqn:?
         end;
    intros H; try congruence; try (left; reflexivity);
    try (unfold stringify2 in H; rewrite stringify_indent_nonempty in H;
         discriminate).
  simpl in H. destruct (String.eqb_spec s ""); [subst; now right | discriminate].
Qed.

(** ** Iterations that extract nothing *)

Section Exhaustion.

Variable remote : nat -> request -> reply.
Variable jobId : value.

Lemma pending_iteration :
  (forall n, exists d,
      remote n (Get (status_v1 jobId)) = Reply d
      /\ classify (get "status" d) = Pending) ->
  forall text s,
    poll_once remote jobId text s = (Ok (Next text), quiet_iteration jobId s).
Proof.
  intros Hall text s. destruct (Hall (calls s)) as (d & Hd & Hc).
  apply (poll_once_transient remote jobId text s d).
  - now apply status_query_v1.
  - intros ->. discriminate Hc.
  - now left.
Qed.

Lemma hollow_iteration :
  (forall n, exists d,
      remote n (Get (status_v1 jobId)) = Reply d
      /\ classify (get "status" d) = Success
      /\ hasResult d = true
      /\ truthy (extract (VStr "") d) = false) ->
  forall s,
    poll_once remote jobId (VStr "") s
    = (Ok (Next (VStr "")), success_iteration jobId s).
Proof.
  intros Hall s. destruct (Hall (calls s)) as (d & Hd & Hc & Hr & He).
  assert (Hnn : d <> VNull) by (intros ->; discriminate Hc).
  rewrite (poll_once_answered remote jobId _ s d (quiet_iteration jobId s));
    [|now apply status_query_v1|exact Hnn].
  rewrite Hc. unfold try_catch, on_success, bind, sleep, fetch_document.
  rewrite Hr. change (negb true) with false. unfold ret.
  destruct d; try congruence; try (vm_compute in Hr; discriminate).
  cbv beta iota zeta delta [object_keys ret]. rewrite He.
  destruct (extract_falsy _ _ He) as [-> | ->]; reflexivity.
Qed.

End Exhaustion.

(** C7. When the loop has used its budget of [maxAttempts] iterations, each
    after a delay of two seconds, and is left without a text, the call fails
    with the timeout error. In particular a job whose status stays pending
    is polled [maxAttempts] times and the call then fails with the timeout
    error; it does not return a text. *)
Theorem C7_exhausted_budget_times_out :
  forall remote extname readFileSync filePath s data jobId,
    truthy (readTextFile extname readFileSync filePath) = false ->
    remote (calls s) (Upload LLAMAPARSE_API_URL filePath) = Reply data ->
    data <> VNull ->
    or_else (get "id" data) (get "job_id" data) = Some jobId ->
    truthy jobId = true ->
    (forall attempts text s',
        poll_loop remote maxAttempts jobId 0 (VStr "")
          (called (Upload LLAMAPARSE_API_URL filePath) s)
          = (Ok (attempts, text), s') ->
        truthy text = false ->
        attempts = maxAttempts
        /\ parseDocumentWithLlamaParse remote extname readFileSync filePath s
           = (Throw timed_out, s'))
    /\ ((forall n, exists d,
            remote n (Get (status_v1 jobId)) = Reply d
            /\ classify (get "status" d) = Pending) ->
        parseDocumentWithLlamaParse remote extname readFileSync filePath s
        = (Throw timed_out,
           repeat_step maxAttempts (quiet_iteration jobId)
             (called (Upload LLAMAPARSE_API_URL filePath) s))).
Proof.
  intros remote extname readFileSync filePath s data jobId Ht Hu Hnn Hid Hj.
  split.
  - intros attempts text s' Hloop He. split.
    + destruct (poll_loop_result remote jobId maxAttempts 0 (VStr "") _ _ _ _
                  eq_refl Hloop) as [[Hc _]|[_ Ha]]; [congruence | exact Ha].
    + exact (parse_loop_empty remote extname readFileSync filePath s data jobId
               Ht Hu Hnn Hid Hj attempts text s' Hloop He).
  - intros Hall.
    apply (parse_loop_empty remote extname readFileSync filePath s data jobId
             Ht Hu Hnn Hid Hj (0 + maxAttempts) (VStr "")); [|reflexivity].
    apply poll_loop_continues. intros s0. now apply pending_iteration.
Qed.

Lemma C7_witness :
  parseDocumentWithLlamaParse (fixed_status pending_body) pdf_extname unread
    "uploads/scan" start
  = (Throw timed_out,
     repeat_step maxAttempts (quiet_iteration job1)
       (called (Upload LLAMAPARSE_API_URL "uploads/scan") start)).
Proof.
  apply (C7_exhausted_budget_times_out (fixed_status pending_body) pdf_extname
           unread "uploads/scan" start job_reply job1).
  - reflexivity.
  - reflexivity.
  - discriminate.
  - reflexivity.
  - reflexivity.
  - intros n. exists pending_body. split; reflexivity.
Defined.

(** The first field of the precedence list that holds a non-empty string
    wins over earlier fields that are absent or empty. *)
Lemma precedence_match parsedText payload pre k post s :
  precedence = (pre ++ k :: post)%list ->
  (forall j, In j pre -> get j payload = None \/ get j payload = Some (VStr "")) ->
  get k payload = Some (VStr s) ->
  s <> "" ->
  extract parsedText payload = VStr s.
Proof.
  intros Hsplit Hpre Hk Hs.
  assert (Hf : forall j, In j pre -> field j payload = None).
  { intros j Hj. destruct (Hpre j Hj);
      [now apply field_get_none | now apply field_get_empty]. }
  assert (Hfk : field k payload = Some (VStr s)) by now apply field_get_text.
  unfold precedence in Hsplit.
  destruct pre as [|p0 [|p1 [|p2 [|p3 [|p4 [|p5 [|p6 pre]]]]]]];
    simpl in Hsplit; inversion Hsplit; subst; clear Hsplit;
    try (destruct pre; discriminate);
    unfold extract;
    repeat match goal with
           | |- context [field ?j payload] =>
               first [ rewrite (Hf j) by (simpl; tauto) | rewrite Hfk ]
           end;
    reflexivity.
Qed.

(** C10. A recognized field that holds the empty string is passed over, and
    the next field of the precedence list is taken. When the chain extracts
    no text from a success response, the iteration does not leave the loop;
    and when no iteration extracts a text, the call uses up its budget and
    fails with the timeout error although the job reported success. *)
Theorem C10_empty_text_keeps_polling :
  (forall parsedText payload pre k post s,
      precedence = (pre ++ k :: post)%list ->
      (forall j, In j pre -> get j payload = Some (VStr "")) ->
      get k payload = Some (VStr s) ->
      s <> "" ->
      extract parsedText payload = VStr s)
  /\ (forall remote jobId statusData s payload s',
         fetch_document remote jobId statusData (record (Sleep 1000) s)
           = (Ok payload, s') ->
         payload <> VNull ->
         truthy (extract (VStr "") payload) = false ->
         on_success remote jobId statusData (VStr "") s = (Ok (Next (VStr "")), s'))
  /\ (forall remote extname readFileSync filePath s data jobId,
         truthy (readTextFile extname readFileSync filePath) = false ->
         remote (calls s) (Upload LLAMAPARSE_API_URL filePath) = Reply data ->
         data <> VNull ->
         or_else (get "id" data) (get "job_id" data) = Some jobId ->
         truthy jobId = true ->
         (forall n, exists d,
             remote n (Get (status_v1 jobId)) = Reply d
             /\ classify (get "status" d) = Success
             /\ hasResult d = true
             /\ truthy (extract (VStr "") d) = false) ->
         parseDocumentWithLlamaParse remote extname readFileSync filePath s
         = (Throw timed_out,
            repeat_step maxAttempts (success_iteration jobId)
              (called (Upload LLAMAPARSE_API_URL filePath) s))).
Proof.
  split; [|split].
  - intros parsedText payload pre k post s Hsplit Hpre.
    apply (precedence_match parsedText payload pre k post s Hsplit).
    intros j Hj. right. now apply Hpre.
  - intros remote jobId statusData s payload s' Hfetch Hnn He.
    unfold on_success, bind, sleep. rewrite Hfetch.
    destruct payload; try congruence;
      cbv beta iota zeta delta [object_keys ret]; rewrite He;
      destruct (extract_falsy _ _ He) as [-> | ->]; reflexivity.
  - intros remote extname readFileSync filePath s data jobId Ht Hu Hnn Hid Hj Hall.
    apply (parse_loop_empty remote extname readFileSync filePath s data jobId
             Ht Hu Hnn Hid Hj (0 + maxAttempts) (VStr "")); [|reflexivity].
    apply poll_loop_continues. intros s0. now apply hollow_iteration.
Qed.

Lemma C10_witness :
  extract (VStr "")
    (VObj [("markdown", VStr ""); ("text", VStr "Take one tablet daily")])
  = VStr "Take one tablet daily"
  /\ parseDocumentWithLlamaParse (fixed_status hollow_body) pdf_extname unread
       "uploads/scan" start
     = (Throw timed_out,
        repeat_step maxAttempts (success_iteration job1)
          (called (Upload LLAMAPARSE_API_URL "uploads/scan") start)).
Proof.
  destruct C10_empty_text_keeps_polling as (Hskip & _ & Hloop). split.
  - apply (Hskip _ _ ["markdown"] "text"
             ["content"; "parsed_content"; "result"; "data"; "document"]).
    + reflexivity.
    + intros j [<- | []]. reflexivity.
    + reflexivity.
    + discriminate.
  - apply (Hloop (fixed_status hollow_body) pdf_extname unread "uploads/scan"
             start job_reply job1).
    + reflexivity.
    + reflexivity.
    + discriminate.
    + reflexivity.
    + reflexivity.
    + intros n. exists hollow_body. repeat split; reflexivity.
Defined.

(** ** Faults of an iteration *)

Section Faults.

Variable remote : nat -> request -> reply.

Lemma try_endpoints_returns endpoints :
  forall documentData s,
    exists found s', try_endpoints remote endpoints documentData s = (Ok found, s').
Proof.
  induction endpoints as [|endpoint rest IH]; intros documentData s; simpl.
  - now exists (false, documentData), s.
  - unfold bind, attempt.
    destruct (call remote (Get endpoint) s) as [[data|e] s1]; [|apply IH].
    destruct data; try apply IH; unfold ret; eauto.
Qed.

Lemma fresh_status_returns jobId statusData s :
  exists d s', fresh_status remote jobId statusData s = (Ok d, s').
Proof.
  unfold fresh_status, try_catch.
  destruct (call remote (Get (status_v1 jobId)) s) as [[d|e] s1]; [eauto|].
  destruct (call remote (Get (status_legacy jobId)) s1) as [[d|e'] s2];
    unfold ret; eauto.
Qed.

Lemma fetch_document_returns jobId statusData s :
  exists d s', fetch_document remote jobId statusData s = (Ok d, s').
Proof.
  unfold fetch_document. destruct (hasResult statusData); cbn [negb].
  - unfold ret. eauto.
  - unfold bind.
    destruct (try_endpoints_returns (resultEndpoints jobId) statusData s)
      as (found & s1 & ->).
    destruct (fst found); cbn [negb];
      [unfold ret; eauto | apply fresh_status_returns].
Qed.

(** What the branch of a [success] status throws carries no response. *)
Lemma on_success_throws jobId statusData parsedText s e s' :
  on_success remote jobId statusData parsedText s = (Throw e, s') ->
  response e = None.
Proof.
  unfold on_success, bind, sleep.
  destruct (fetch_document_returns jobId statusData (record (Sleep 1000) s))
    as (d & s1 & ->).
  destruct d; cbn [object_keys]; unfold throw, ret; cbv zeta;
    try (destruct (truthy (extract parsedText _)); discriminate).
  now intros [= <- <-].
Qed.

Lemma status_query_throws jobId s e s' :
  status_query remote jobId s = (Throw e, s') ->
  s' = called (Get (status_legacy jobId)) (called (Get (status_v1 jobId)) s)
  /\ exists e1,
       remote (calls s) (Get (status_v1 jobId)) = Fault e1
       /\ remote (S (calls s)) (Get (status_legacy jobId)) = Fault e.
Proof.
  unfold status_query, try_catch, call.
  destruct (remote (calls s) (Get (status_v1 jobId))) as [d|e1]; [discriminate|].
  cbn [calls called].
  destruct (remote (S (calls s)) (Get (status_legacy jobId))) as [d|e2];
    [discriminate|].
  intros [= <- <-]. split; [reflexivity|]. now exists e1.
Qed.

Lemma read_throws k v s e s' :
  read k v s = (Throw e, s') -> response e = None.
Proof. destruct v; simpl; unfold throw, ret; now intros [= <- <-]. Qed.

Lemma handler_throws parsedText (e0 : js_error) s0 e s' :
  (if is404 e0 then throw job_not_found else ret (Next parsedText)) s0
  = (Throw e, s') ->
  e = job_not_found /\ s' = s0 /\ is404 e0 = true.
Proof.
  destruct (is404 e0); unfold throw, ret; [|discriminate].
  now intros [= <- <-].
Qed.

Lemma plain_not_404 (e : js_error) : response e = None -> is404 e = false.
Proof. unfold is404. now intros ->. Qed.

(** An iteration throws only when both paths of its status query have
    failed and the second fault carries the status 404. *)
Lemma poll_once_throws jobId parsedText s e s' :
  poll_once remote jobId parsedText s = (Throw e, s') ->
  e = job_not_found
  /\ s' = called (Get (status_legacy jobId))
            (called (Get (status_v1 jobId)) (record (Sleep 2000) s))
  /\ exists e1 e2,
       remote (calls s) (Get (status_v1 jobId)) = Fault e1
       /\ remote (S (calls s)) (Get (status_legacy jobId)) = Fault e2
       /\ is404 e2 = true.
Proof.
  unfold poll_once, bind, sleep, try_catch.
  destruct (status_query remote jobId (record (Sleep 2000) s))
    as [[d|e0] s1] eqn:Hq.
  - destruct (read "status" d s1) as [[st|e0] s2] eqn:Hr.
    + destruct (classify st).
      * destruct (on_success remote jobId d parsedText s2) as [[c|e0] s3] eqn:E;
          [discriminate|].
        intros H. apply handler_throws in H. destruct H as (_ & _ & H).
        now rewrite (plain_not_404 _ (on_success_throws _ _ _ _ _ _ E)) in H.
      * unfold on_error, throw. intros H. apply handler_throws in H.
        destruct H as (_ & _ & H). discriminate H.
      * discriminate.
      * discriminate.
    + intros H. apply handler_throws in H. destruct H as (_ & _ & H).
      now rewrite (plain_not_404 _ (read_throws _ _ _ _ _ Hr)) in H.
  - intros H. apply handler_throws in H. destruct H as (-> & -> & H404).
    apply status_query_throws in Hq. destruct Hq as (-> & e1 & H1 & H2).
    repeat split. now exists e1, e0.
Qed.

End Faults.

(** C9. When the status query of an iteration fails, on the v1 path and
    then on the other path, the fault is swallowed and the loop goes on with
    the next attempt, unless the fault carries the HTTP status 404: then the
    loop is left at once with the error that says that the job may have
    expired, and no further request is made. This is the only error that
    leaves an iteration: every other fault or exception in it is swallowed.
    The call then fails with that error. *)
Theorem C9_poll_faults :
  (forall remote jobId left attempts parsedText s e1 e2,
      remote (calls s) (Get (status_v1 jobId)) = Fault e1 ->
      remote (S (calls s)) (Get (status_legacy jobId)) = Fault e2 ->
      let s' := called (Get (status_legacy jobId))
                  (called (Get (status_v1 jobId)) (record (Sleep 2000) s)) in
      (is404 e2 = false ->
         poll_loop remote (S left) jobId attempts parsedText s
         = poll_loop remote left jobId (S attempts) parsedText s')
      /\ (is404 e2 = true ->
            poll_loop remote (S left) jobId attempts parsedText s
            = (Throw job_not_found, s')))
  /\ (forall remote jobId parsedText s e s',
         poll_once remote jobId parsedText s = (Throw e, s') ->
         e = job_not_found
         /\ s' = called (Get (status_legacy jobId))
                   (called (Get (status_v1 jobId)) (record (Sleep 2000) s))
         /\ exists e1 e2,
              remote (calls s) (Get (status_v1 jobId)) = Fault e1
              /\ remote (S (calls s)) (Get (status_legacy jobId)) = Fault e2
              /\ is404 e2 = true)
  /\ (forall remote extname readFileSync filePath s data jobId s',
         truthy (readTextFile extname readFileSync filePath) = false ->
         remote (calls s) (Upload LLAMAPARSE_API_URL filePath) = Reply data ->
         data <> VNull ->
         or_else (get "id" data) (get "job_id" data) = Some jobId ->
         truthy jobId = true ->
         poll_loop remote maxAttempts jobId 0 (VStr "")
           (called (Upload LLAMAPARSE_API_URL filePath) s)
           = (Throw job_not_found, s') ->
         parseDocumentWithLlamaParse remote extname readFileSync filePath s
         = (Throw (parse_failure
                     "LlamaParse job not found. The job may have expired."),
            s')).
Proof.
  split; [|split].
  - intros remote jobId left attempts parsedText s e1 e2 H1 H2 s'.
    assert (Hq : status_query remote jobId (record (Sleep 2000) s) = (Throw e2, s')).
    { exact (status_query_faults remote jobId (record (Sleep 2000) s) e1 e2 H1 H2). }
    assert (Honce : poll_once remote jobId parsedText s
                    = (if is404 e2 then throw job_not_found
                       else ret (Next parsedText)) s').
    { unfold poll_once, bind, sleep, try_catch. now rewrite Hq. }
    split; intros H404; simpl; unfold bind; now rewrite Honce, H404.
  - exact poll_once_throws.
  - intros remote extname readFileSync filePath s data jobId s' Ht Hu Hnn Hid Hj Hloop.
    exact (parse_loop_throws remote extname readFileSync filePath s data jobId
             Ht Hu Hnn Hid Hj _ _ Hloop).
Qed.

Lemma C9_witness :
  poll_loop (failing_status gateway_fault) 60 job1 0 (VStr "") start
  = poll_loop (failing_status gateway_fault) 59 job1 1 (VStr "")
      (called (Get (status_legacy job1))
         (called (Get (status_v1 job1)) (record (Sleep 2000) start)))
  /\ poll_loop (failing_status not_found_fault) 60 job1 0 (VStr "") start
     = (Throw job_not_found,
        called (Get (status_legacy job1))
          (called (Get (status_v1 job1)) (record (Sleep 2000) start))).
Proof.
  destruct C9_poll_faults as (Hfault & _ & _). split.
  - apply (Hfault (failing_status gateway_fault) job1 59 0 (VStr "")
             start gateway_fault gateway_fault); reflexivity.
  - apply (Hfault (failing_status not_found_fault) job1 59 0 (VStr "")
             start not_found_fault not_found_fault); reflexivity.
Defined.

(** ** The upload response *)

Lemma or_else_falsy k1 k2 d jobId :
  field k1 d = None ->
  field k2 d = None ->
  or_else (get k1 d) (get k2 d) = Some jobId ->
  truthy jobId = false.
Proof.
  unfold field, or_else. intros H1 H2.
  destruct (get k1 d) as [a|]; [destruct (truthy a); [discriminate|]|];
    (destruct (get k2 d) as [b|]; [|discriminate]);
    destruct (truthy b) eqn:E; try discriminate; now intros [= <-].
Qed.

(** C8. When the upload response holds a job identifier neither under [id]
    nor under [job_id], the call fails at once: the upload is the only
    request made, no polling iteration starts, and nothing is tried again.
    The error names the missing job identifier and quotes the response. *)
Theorem C8_no_job_id :
  forall remote extname readFileSync filePath s data,
    truthy (readTextFile extname readFileSync filePath) = false ->
    remote (calls s) (Upload LLAMAPARSE_API_URL filePath) = Reply data ->
    field "id" data = None ->
    field "job_id" data = None ->
    exists e,
      parseDocumentWithLlamaParse remote extname readFileSync filePath s
      = (Throw e, called (Upload LLAMAPARSE_API_URL filePath) s)
      /\ (data <> VNull ->
          e = parse_failure ("No job ID returned from LlamaParse. Response: "
                             ++ stringify data)).
Proof.
  intros remote extname readFileSync filePath s data Ht Hu Hid Hjob.
  unfold parseDocumentWithLlamaParse, parse_body, try_catch, bind.
  rewrite Ht, (call_reply _ _ _ _ Hu).
  destruct data eqn:Edata;
    [ eexists; split; [reflexivity | congruence] | .. ];
    unfold read, ret; rewrite <- Edata in *;
    (destruct (or_else (get "id" data) (get "job_id" data)) as [jobId|] eqn:E;
     [ rewrite (or_else_falsy _ _ _ _ Hid Hjob E) |]);
    (eexists; split; [reflexivity | intros _; reflexivity]).
Qed.

Lemma C8_witness :
  exists e,
    parseDocumentWithLlamaParse no_job pdf_extname unread "uploads/scan" start
    = (Throw e, called (Upload LLAMAPARSE_API_URL "uploads/scan") start)
    /\ (VObj [("status", VStr "accepted")] <> VNull ->
        e = parse_failure
              ("No job ID returned from LlamaParse. Response: "
               ++ stringify (VObj [("status", VStr "accepted")]))).
Proof.
  apply (C8_no_job_id no_job pdf_extname unread "uploads/scan" start
           (VObj [("status", VStr "accepted")])); reflexivity.
Defined.

(** ** The status of the job *)

Lemma is_str_spec lit s : is_str lit (Some (VStr s)) = true <-> s = lit.
Proof. simpl. apply String.eqb_eq. Qed.

Lemma classify_spec (s : string) :
  (classify (Some (VStr s)) = Success <-> s = "success" \/ s = "SUCCESS")
  /\ (classify (Some (VStr s)) = Failed <-> s = "error" \/ s = "ERROR")
  /\ (classify (Some (VStr s)) = Pending <-> s = "pending" \/ s = "PENDING").
Proof.
  unfold classify, is_str.
  destruct (String.eqb_spec s "success") as [->|N1];
    [simpl; repeat split; intros; try tauto; try discriminate;
     destruct H; discriminate|].
  destruct (String.eqb_spec s "SUCCESS") as [->|N2];
    [simpl; repeat split; intros; try tauto; try discriminate;
     destruct H; discriminate|].
  destruct (String.eqb_spec s "error") as [->|N3];
    [simpl; repeat split; intros; try tauto; try discriminate;
     destruct H; discriminate|].
  destruct (String.eqb_spec s "ERROR") as [->|N4];
    [simpl; repeat split; intros; try tauto; try discriminate;
     destruct H; discriminate|].
  destruct (String.eqb_spec s "pending") as [->|N5];
    [simpl; repeat split; intros; try tauto; try discriminate;
     destruct H; discriminate|].
  destruct (String.eqb_spec s "PENDING") as [->|N6];
    [simpl; repeat split; intros; try tauto; try discriminate;
     destruct H; discriminate|].
  simpl; repeat split; intros H; try discriminate; tauto.
Qed.

(** C4, as the code has it. The status is compared by exact match with the
    lower-case and the upper-case spelling of each word: [success] and
    [SUCCESS] are a success, [error] and [ERROR] an error, [pending] and
    [PENDING] pending, and every other value, a mixed-case spelling
    included, is unknown. Where the code recognizes a status it agrees with
    the comparison without regard to case. A pending and an unknown status
    both let the loop go on with the next attempt, and nothing is thrown. *)
Theorem C4_status_by_exact_match :
  (forall status : string,
      (classify (Some (VStr status)) = Success
       <-> status = "success" \/ status = "SUCCESS")
      /\ (classify (Some (VStr status)) = Failed
          <-> status = "error" \/ status = "ERROR")
      /\ (classify (Some (VStr status)) = Pending
          <-> status = "pending" \/ status = "PENDING")
      /\ (classify (Some (VStr status)) <> Unknown ->
          classify (Some (VStr status)) = normalize_case_insensitive status))
  /\ (forall remote jobId left attempts parsedText s statusData s',
         status_query remote jobId (record (Sleep 2000) s) = (Ok statusData, s') ->
         statusData <> VNull ->
         classify (get "status" statusData) = Pending
         \/ classify (get "status" statusData) = Unknown ->
         poll_loop remote (S left) jobId attempts parsedText s
         = poll_loop remote left jobId (S attempts) parsedText s').
Proof.
  split.
  - intros status. destruct (classify_spec status) as (Hs & He & Hp).
    repeat split; try apply Hs; try apply He; try apply Hp.
    clear Hs He Hp. intros Hk.
    destruct (classify (Some (VStr status))) eqn:E.
    + apply (classify_spec status) in E. destruct E as [-> | ->]; reflexivity.
    + apply (classify_spec status) in E. destruct E as [-> | ->]; reflexivity.
    + apply (classify_spec status) in E. destruct E as [-> | ->]; reflexivity.
    + congruence.
  - intros remote jobId left attempts parsedText s statusData s' Hq Hnn Hc.
    simpl. unfold bind.
    now rewrite (poll_once_transient remote jobId parsedText s statusData s' Hq Hnn Hc).
Qed.

Lemma C4_witness :
  poll_loop (fixed_status (VObj [("status", VStr "Success")])) 60 job1 0
    (VStr "") start
  = poll_loop (fixed_status (VObj [("status", VStr "Success")])) 59 job1 1
      (VStr "") (quiet_iteration job1 start).
Proof.
  destruct C4_status_by_exact_match as [_ H].
  apply (H _ job1 59 0 (VStr "") start (VObj [("status", VStr "Success")])).
  - reflexivity.
  - discriminate.
  - right. reflexivity.
Defined.

(** C4 as the specification words it fails: the status [Success] is a
    casing variant of [success], and the loop treats it as unknown. *)
Lemma C4_counterexample :
  normalize_case_insensitive "Success" = Success
  /\ classify (Some (VStr "Success")) = Unknown.
Proof. split; reflexivity. Qed.

Lemma failed_iteration remote jobId :
  (forall n, exists d,
      remote n (Get (status_v1 jobId)) = Reply d
      /\ classify (get "status" d) = Failed) ->
  forall text s,
    poll_once remote jobId text s = (Ok (Next text), quiet_iteration jobId s).
Proof.
  intros Hall text s. destruct (Hall (calls s)) as (d & Hd & Hc).
  apply (poll_once_error_status remote jobId text s d).
  - now apply status_query_v1.
  - intros ->. discriminate Hc.
  - exact Hc.
Qed.

(** C2, at a job that reports an error with a reason. The error thrown for
    the status never leaves the iteration: the loop polls [maxAttempts]
    times and the call fails with the timeout error, which does not carry
    the reason that the service gave. *)
Theorem C2_error_status_keeps_polling :
  classify (get "status" error_body) = Failed
  /\ on_error error_body start
     = (Throw (Error "LlamaParse parsing failed: Unsupported file type"), start)
  /\ poll_once (fixed_status error_body) job1 (VStr "") start
     = (Ok (Next (VStr "")), quiet_iteration job1 start)
  /\ parseDocumentWithLlamaParse (fixed_status error_body) pdf_extname unread
       "uploads/scan" start
     = (Throw timed_out,
        repeat_step maxAttempts (quiet_iteration job1)
          (called (Upload LLAMAPARSE_API_URL "uploads/scan") start)).
Proof.
  assert (Hall : forall n, exists d,
             fixed_status error_body n (Get (status_v1 job1)) = Reply d
             /\ classify (get "status" d) = Failed).
  { intros n. exists error_body. split; reflexivity. }
  split; [reflexivity|]. split; [reflexivity|]. split.
  - now apply failed_iteration.
  - apply (parse_loop_empty (fixed_status error_body) pdf_extname unread
             "uploads/scan" start job_reply job1 eq_refl eq_refl
             ltac:(discriminate) eq_refl eq_refl (0 + maxAttempts) (VStr ""));
      [|reflexivity].
    apply (poll_loop_continues _ job1 (VStr "") (quiet_iteration job1)).
    intros s0. now apply failed_iteration.
Qed.

(** ** The precedence list of the specification *)

Lemma nonempty_text_skips k d :
  field k d = None -> nonempty_text (get k d) = None.
Proof.
  unfold field. destruct (get k d) as [[| | |s| |]|]; simpl; try reflexivity;
    try discriminate.
  destruct (s =? ""); [reflexivity | discriminate].
Qed.

Lemma one_level_skips k d : field k d = None -> one_level (get k d) = None.
Proof.
  intros H. pose proof (nonempty_text_skips k d H) as Hn.
  unfold field in H. destruct (get k d) as [[| | |s| |]|]; try exact Hn.
  discriminate.
Qed.

Lemma nonempty_text_takes k d s :
  field k d = Some (VStr s) -> nonempty_text (get k d) = Some s.
Proof.
  unfold field. destruct (get k d) as [x|]; [|discriminate].
  destruct (truthy x) eqn:E; [|discriminate]. intros [= ->].
  simpl in *. now destruct (s =? "").
Qed.

Lemma one_level_takes k d s :
  field k d = Some (VStr s) -> one_level (get k d) = Some s.
Proof.
  intros H. pose proof (nonempty_text_takes k d s H) as Hn.
  unfold field in H. destruct (get k d) as [[| | |t| |]|]; try exact Hn.
  destruct (truthy (VObj fields)); discriminate.
Qed.

(** A text that the chain takes from a recognized field, or from a payload
    that is a string, is the text that the precedence list designates. *)
Lemma extract_follows_precedence payload s :
  extract (VStr "") payload = VStr s ->
  s <> "" ->
  (exists k, In k precedence /\ field k payload <> None)
  \/ (exists t, payload = VStr t) ->
  resolve_by_precedence payload = Some s.
Proof.
  intros Hex Hs Hfield. unfold resolve_by_precedence. unfold extract in Hex.
  destruct (field "markdown" payload) as [v|] eqn:E1;
    [subst v; now rewrite (nonempty_text_takes _ _ _ E1)|].
  rewrite (nonempty_text_skips _ _ E1).
  destruct (field "text" payload) as [v|] eqn:E2;
    [subst v; now rewrite (nonempty_text_takes _ _ _ E2)|].
  rewrite (nonempty_text_skips _ _ E2).
  destruct (field "content" payload) as [v|] eqn:E3;
    [subst v; now rewrite (nonempty_text_takes _ _ _ E3)|].
  rewrite (nonempty_text_skips _ _ E3).
  destruct (field "parsed_content" payload) as [v|] eqn:E4;
    [subst v; now rewrite (nonempty_text_takes _ _ _ E4)|].
  rewrite (nonempty_text_skips _ _ E4).
  assert (Hinner : forall k r,
             field k payload = Some r ->
             match r with
             | VStr _ => r
             | _ =>
                 match field "markdown" r with Some v => v | None =>
                 match field "text" r with Some v => v | None =>
                 match field "content" r with Some v => v | None =>
                 VStr "" end end end
             end = VStr s ->
             one_level (get k payload) = Some s).
  { intros k r Hk Hr.
    destruct r as [| | |t|l|fs];
      try (injection Hr as ->; now apply one_level_takes);
      try (simpl in Hr; congruence).
    assert (Hget : get k payload = Some (VObj fs)).
    { unfold field in Hk. destruct (get k payload) as [x|]; [|discriminate].
      destruct (truthy x); congruence. }
    rewrite Hget. unfold one_level.
    change (assoc "markdown" fs) with (get "markdown" (VObj fs)).
    change (assoc "text" fs) with (get "text" (VObj fs)).
    change (assoc "content" fs) with (get "content" (VObj fs)).
    destruct (field "markdown" (VObj fs)) as [v|] eqn:I1;
      [subst v; now rewrite (nonempty_text_takes _ _ _ I1)|].
    rewrite (nonempty_text_skips _ _ I1).
    destruct (field "text" (VObj fs)) as [v|] eqn:I2;
      [subst v; now rewrite (nonempty_text_takes _ _ _ I2)|].
    rewrite (nonempty_text_skips _ _ I2).
    destruct (field "content" (VObj fs)) as [v|] eqn:I3;
      [subst v; now rewrite (nonempty_text_takes _ _ _ I3)|].
    congruence. }
  assert (Hinner2 : forall k r,
             field k payload = Some r ->
             match r with
             | VStr _ => r
             | _ =>
                 match field "markdown" r with Some v => v | None =>
                 match field "text" r with Some v => v | None =>
                 VStr "" end end
             end = VStr s ->
             one_level (get k payload) = Some s).
  { intros k r Hk Hr. apply (Hinner k r Hk).
    destruct r as [| | | |l|fs]; try exact Hr.
    destruct (field "markdown" (VObj fs)); [exact Hr|].
    destruct (field "text" (VObj fs)); [exact Hr|].
    exfalso. apply Hs. congruence. }
  destruct (field "result" payload) as [r|] eqn:E5;
    [now rewrite (Hinner _ _ E5 Hex)|].
  rewrite (one_level_skips _ _ E5).
  destruct (field "data" payload) as [r|] eqn:E6;
    [now rewrite (Hinner2 _ _ E6 Hex)|].
  rewrite (one_level_skips _ _ E6).
  destruct (field "document" payload) as [r|] eqn:E7;
    [now rewrite (Hinner2 _ _ E7 Hex)|].
  rewrite (one_level_skips _ _ E7).
  destruct Hfield as [(k & Hk & Hne) | (t & ->)].
  - simpl in Hk.
    repeat (destruct Hk as [<- | Hk]; [congruence|]). contradiction.
  - injection Hex as ->. simpl.
    destruct (String.eqb_spec s ""); [contradiction | reflexivity].
Qed.

(** C1, at a success response that carries its text as [data.content]. The
    precedence list designates that text; the chain enters the branch of
    [data], finds neither [markdown] nor [text] in it and assigns nothing,
    where the branch of [result] would have taken [content]. The loop then
    goes on, and the call ends with the timeout error. *)
Theorem C1_nested_content_is_missed :
  resolve_by_precedence nested_content_body = Some "Blood pressure 120/80"
  /\ extract (VStr "") nested_content_body = VStr ""
  /\ extract (VStr "")
       (VObj [("status", VStr "success");
              ("result", VObj [("content", VStr "Blood pressure 120/80")])])
     = VStr "Blood pressure 120/80"
  /\ parseDocumentWithLlamaParse (fixed_status nested_content_body)
       pdf_extname unread "uploads/scan" start
     = (Throw timed_out,
        repeat_step maxAttempts (success_iteration job1)
          (called (Upload LLAMAPARSE_API_URL "uploads/scan") start)).
Proof.
  split; [reflexivity|]. split; [reflexivity|]. split; [reflexivity|].
  apply (parse_loop_empty (fixed_status nested_content_body) pdf_extname unread
           "uploads/scan" start job_reply job1 eq_refl eq_refl
           ltac:(discriminate) eq_refl eq_refl (0 + maxAttempts) (VStr ""));
    [|reflexivity].
  apply (poll_loop_continues _ job1 (VStr "") (success_iteration job1)).
  apply hollow_iteration. intros n. exists nested_content_body.
  repeat split; reflexivity.
Qed.

Lemma C3_witness :
  (forall k, In k precedence -> field k nested_payload = None)
  /\ (forall s, nested_payload <> VStr s)
  /\ extract (VStr "") nested_payload = VStr text150
  /\ String.length text150 = 150.
Proof.
  assert (H1 : forall k, In k precedence -> field k nested_payload = None).
  { intros k Hk. simpl in Hk.
    repeat (destruct Hk as [<- | Hk]; [reflexivity|]). contradiction. }
  assert (H2 : forall s, nested_payload <> VStr s) by discriminate.
  split; [exact H1|]. split; [exact H2|].
  destruct (C3_unstructured_extraction (VStr "") nested_payload H1 H2)
    as (Hext & _). split; [|reflexivity].
  rewrite Hext. reflexivity.
Defined.

(** ** The chain of models *)

Section Models.

Variable remote : nat -> request -> reply.

Lemma generated_app pre rest prompt s :
  generated (pre ++ rest) prompt s = generated rest prompt (generated pre prompt s).
Proof. unfold generated. apply fold_left_app. Qed.

Lemma calls_generated names prompt s :
  calls (generated names prompt s) = calls s + length names.
Proof.
  revert s. induction names as [|m names IH]; intros s; simpl.
  - now rewrite Nat.add_0_r.
  - rewrite IH. simpl. lia.
Qed.

(** Models that fail with the not-found class are passed over. *)
Lemma try_models_skips pre rest prompt summary :
  forall s,
    all_not_found remote pre prompt (calls s) ->
    try_models remote (pre ++ rest) prompt summary s
    = try_models remote rest prompt summary (generated pre prompt s).
Proof.
  induction pre as [|m pre IH]; intros s Hall; [reflexivity|].
  destruct (Hall 0 m eq_refl) as (e & He & Hnf).
  rewrite Nat.add_0_r in He.
  simpl. unfold bind, attempt. rewrite (call_fault _ _ _ _ He), Hnf.
  apply IH. intros j name Hj.
  destruct (Hall (S j) name Hj) as (e' & He' & Hnf').
  exists e'. split; [|exact Hnf'].
  simpl. now rewrite <- Nat.add_succ_r.
Qed.

Lemma try_models_answer m rest prompt summary s t :
  remote (calls s) (Generate m prompt) = Reply t ->
  try_models remote (m :: rest) prompt summary s
  = (Ok t, called (Generate m prompt) s).
Proof.
  intros H. simpl. unfold bind, attempt. now rewrite (call_reply _ _ _ _ H).
Qed.

Lemma try_models_abort m rest prompt summary s e :
  remote (calls s) (Generate m prompt) = Fault e ->
  model_not_found e = false ->
  try_models remote (m :: rest) prompt summary s
  = (Throw e, called (Generate m prompt) s).
Proof.
  intros H Hnf. simpl. unfold bind, attempt.
  now rewrite (call_fault _ _ _ _ H), Hnf.
Qed.

End Models.

Lemma generated_state names prompt :
  forall s,
    generated names prompt s
    = {| calls := calls s + length names;
         trace := trace s ++ map (fun name => Call (Generate name prompt)) names |}.
Proof.
  induction names as [|m names IH]; intros s.
  - destruct s as [c t]. simpl. now rewrite Nat.add_0_r, app_nil_r.
  - simpl. rewrite IH. simpl. f_equal; [lia|].
    now rewrite <- app_assoc.
Qed.

(** When the loop over the models is left without a text, the REST request
    follows, and its outcome is the outcome of the call. *)
Lemma summarize_falls_back remote key text targetLanguage s t s1 :
  try_models remote modelNames (make_prompt text targetLanguage) VNull s
  = (Ok t, s1) ->
  truthy t = false ->
  let post := Post (rest_url key) (rest_body (make_prompt text targetLanguage)) in
  summarizeWithGemini remote key text targetLanguage s
  = match remote (calls s1) post with
    | Reply data =>
        match rest_text data with
        | Some t' =>
            if truthy t' then (Ok t', called post s1)
            else (Throw (Error "Failed to get response from Gemini API"),
                  called post s1)
        | None =>
            (Throw (Error "Failed to get response from Gemini API"),
             called post s1)
        end
    | Fault e => (Throw e, called post s1)
    end.
Proof.
  intros Hchain Ht post.
  unfold summarizeWithGemini, try_catch, bind. rewrite Hchain, Ht.
  cbn [negb]. fold post. unfold call.
  destruct (remote (calls s1) post) as [data|e]; [|reflexivity].
  destruct (rest_text data) as [t'|]; [|reflexivity].
  destruct (truthy t'); reflexivity.
Qed.

(** C5, as the code has it. The candidate models are tried in the order of
    the list, and one whose failure is of the not-found class (its message
    contains [404] or [not found]) is passed over without a trace of its
    error. The chain stops at the first candidate that answers, whatever
    its text: no later candidate is asked. A text that is not empty is
    returned, and then nothing else is requested; an empty text is not
    returned: the call goes on with the one REST request, to the default
    model and with the same prompt, and ends as that request ends. The
    first candidate that fails with an error of another class ends the chain
    too: that error is thrown as it is, and nothing else is requested. *)
Theorem C5_model_chain :
  forall remote key text targetLanguage s pre m post,
    modelNames = (pre ++ m :: post)%list ->
    let prompt := make_prompt text targetLanguage in
    all_not_found remote pre prompt (calls s) ->
    let asked := map (fun name => Call (Generate name prompt)) (pre ++ [m])%list in
    let rest :=
      Post ("https://generativelanguage.googleapis.com/v1beta/models/gemini-pro:generateContent?key="
            ++ key)
           (VObj [("contents",
                   VArr [VObj [("parts", VArr [VObj [("text", VStr prompt)]])]])]) in
    let stopped :=
      {| calls := calls s + length pre + 1;
         trace := (trace s ++ asked)%list |} in
    let fell_back :=
      {| calls := calls s + length pre + 2;
         trace := (trace s ++ asked ++ [Call rest])%list |} in
    (forall e, model_not_found e
               = includes "404" (message e) || includes "not found" (message e))
    /\ (forall t,
           remote (calls s + length pre) (Generate m prompt) = Reply t ->
           truthy t = true ->
           summarizeWithGemini remote key text targetLanguage s = (Ok t, stopped))
    /\ (forall t,
           remote (calls s + length pre) (Generate m prompt) = Reply t ->
           truthy t = false ->
           snd (summarizeWithGemini remote key text targetLanguage s) = fell_back
           /\ (forall data t',
                  remote (calls s + length pre + 1) rest = Reply data ->
                  rest_text data = Some t' ->
                  truthy t' = true ->
                  summarizeWithGemini remote key text targetLanguage s
                  = (Ok t', fell_back))
           /\ (forall data,
                  remote (calls s + length pre + 1) rest = Reply data ->
                  rest_text data = None
                  \/ (exists t', rest_text data = Some t' /\ truthy t' = false) ->
                  summarizeWithGemini remote key text targetLanguage s
                  = (Throw (Error "Failed to get response from Gemini API"),
                     fell_back))
           /\ (forall e,
                  remote (calls s + length pre + 1) rest = Fault e ->
                  summarizeWithGemini remote key text targetLanguage s
                  = (Throw e, fell_back)))
    /\ (forall e,
           remote (calls s + length pre) (Generate m prompt) = Fault e ->
           model_not_found e = false ->
           summarizeWithGemini remote key text targetLanguage s
           = (Throw e, stopped)).
Proof.
  intros remote key text targetLanguage s pre m post Hsplit prompt Hpre
         asked rest stopped fell_back.
  assert (Hstopped : called (Generate m prompt) (generated pre prompt s) = stopped).
  { rewrite generated_state. unfold called, stopped, asked. cbn [calls trace].
    f_equal; [lia|]. rewrite map_app, <- app_assoc. reflexivity. }
  assert (Hfell : called rest stopped = fell_back).
  { unfold called, stopped, fell_back. cbn [calls trace]. f_equal; [lia|].
    now rewrite <- app_assoc. }
  assert (Hanswer : forall t,
             remote (calls s + length pre) (Generate m prompt) = Reply t ->
             try_models remote modelNames prompt VNull s = (Ok t, stopped)).
  { intros t Ht.
    rewrite Hsplit, (try_models_skips remote pre _ prompt VNull s Hpre).
    rewrite (try_models_answer remote m post prompt VNull _ t)
      by (now rewrite calls_generated).
    now rewrite Hstopped. }
  split; [reflexivity|]. split; [|split].
  - intros t Ht Htruthy.
    unfold summarizeWithGemini, try_catch, bind. fold prompt.
    now rewrite (Hanswer t Ht), Htruthy.
  - intros t Ht Hfalsy.
    pose proof (summarize_falls_back remote key text targetLanguage s t stopped
                  (Hanswer t Ht) Hfalsy) as Hrun.
    cbv zeta in Hrun.
    change (Post (rest_url key) (rest_body (make_prompt text targetLanguage)))
      with rest in Hrun.
    rewrite Hfell in Hrun.
    change (calls stopped) with (calls s + length pre + 1) in Hrun.
    split; [|split; [|split]].
    + rewrite Hrun.
      destruct (remote (calls s + length pre + 1) rest) as [data|e];
        [|reflexivity].
      destruct (rest_text data) as [t'|]; [|reflexivity].
      destruct (truthy t'); reflexivity.
    + intros data t' Hd Ht' Htruthy. now rewrite Hrun, Hd, Ht', Htruthy.
    + intros data Hd [Hno | (t' & Ht' & Hfalse)]; rewrite Hrun, Hd.
      * now rewrite Hno.
      * now rewrite Ht', Hfalse.
    + intros e He. now rewrite Hrun, He.
  - intros e He Hnf.
    unfold summarizeWithGemini, try_catch, bind. fold prompt.
    rewrite Hsplit, (try_models_skips remote pre _ prompt VNull s Hpre).
    rewrite (try_models_abort remote m post prompt VNull _ e)
      by (try rewrite calls_generated; assumption).
    now rewrite Hstopped.
Qed.

Lemma C5_witness :
  summarizeWithGemini second_model_answers "key" "Hemoglobin 13.5 g/dL" "Spanish"
    start
  = (Ok (VStr "Resumen del documento"),
     {| calls := 2;
        trace := [Call (Generate "gemini-1.5-flash"
                          (make_prompt "Hemoglobin 13.5 g/dL" "Spanish"));
                  Call (Generate "gemini-1.5-pro"
                          (make_prompt "Hemoglobin 13.5 g/dL" "Spanish"))] |})
  /\ summarizeWithGemini first_empty_second_ready "key" "Hemoglobin 13.5 g/dL"
       "Spanish" start
     = (Ok (VStr "Resumen del documento"),
        {| calls := 2;
           trace := [Call (Generate "gemini-1.5-flash"
                             (make_prompt "Hemoglobin 13.5 g/dL" "Spanish"));
                     Call (Post (rest_url "key")
                             (rest_body
                                (make_prompt "Hemoglobin 13.5 g/dL" "Spanish")))] |})
  /\ summarizeWithGemini quota_on_second "key" "Hemoglobin 13.5 g/dL" "Spanish"
       start
     = (Throw quota_exceeded,
        {| calls := 2;
           trace := [Call (Generate "gemini-1.5-flash"
                             (make_prompt "Hemoglobin 13.5 g/dL" "Spanish"));
                     Call (Generate "gemini-1.5-pro"
                             (make_prompt "Hemoglobin 13.5 g/dL" "Spanish"))] |}).
Proof.
  assert (Hfirst : forall remote,
             remote 0 (Generate "gemini-1.5-flash"
                         (make_prompt "Hemoglobin 13.5 g/dL" "Spanish"))
             = Fault model_missing ->
             all_not_found remote ["gemini-1.5-flash"]
               (make_prompt "Hemoglobin 13.5 g/dL" "Spanish") (calls start)).
  { intros remote H j name Hj. destruct j as [|[|j]]; try discriminate.
    injection Hj as <-. exists model_missing. split; [exact H | reflexivity]. }
  split; [|split].
  - apply (C5_model_chain second_model_answers "key" "Hemoglobin 13.5 g/dL"
             "Spanish" start ["gemini-1.5-flash"] "gemini-1.5-pro" ["gemini-pro"]
             eq_refl (Hfirst _ eq_refl)); reflexivity.
  - apply (C5_model_chain first_empty_second_ready "key" "Hemoglobin 13.5 g/dL"
             "Spanish" start [] "gemini-1.5-flash"
             ["gemini-1.5-pro"; "gemini-pro"] eq_refl)
      with (t := VStr "") (data := rest_reply "Resumen del documento").
    + intros j name Hj. destruct j; discriminate.
    + reflexivity.
    + reflexivity.
    + reflexivity.
    + reflexivity.
    + reflexivity.
  - apply (C5_model_chain quota_on_second "key" "Hemoglobin 13.5 g/dL"
             "Spanish" start ["gemini-1.5-flash"] "gemini-1.5-pro" ["gemini-pro"]
             eq_refl (Hfirst _ eq_refl)); reflexivity.
Defined.

(** C5 as the specification words it fails when the first success is an
    empty text: the chain stops, yet the text returned is the one of the
    REST endpoint, which is called next. *)
Lemma C5_counterexample :
  empty_then_rest 0
    (Generate "gemini-1.5-flash" (make_prompt "Hemoglobin 13.5 g/dL" "Spanish"))
  = Reply (VStr "")
  /\ summarizeWithGemini empty_then_rest "key" "Hemoglobin 13.5 g/dL" "Spanish"
       start
     = (Ok (VStr "Resumen del documento"),
        called (Post (rest_url "key")
                  (rest_body (make_prompt "Hemoglobin 13.5 g/dL" "Spanish")))
          (called (Generate "gemini-1.5-flash"
                     (make_prompt "Hemoglobin 13.5 g/dL" "Spanish")) start)).
Proof. split; reflexivity. Qed.

(** C6, as the code has it. When every candidate model has failed with an
    error of the not-found class, exactly one REST request follows the three
    model calls: a POST to the [generateContent] endpoint of the default
    model [gemini-pro], whose body carries the prompt that the models were
    given. When the response holds a text under
    [candidates[0].content.parts[0].text], that text is returned. When the
    response holds no usable text there, the call fails with the error that
    no response was obtained from the Gemini API. When the REST request
    itself fails, the call fails with the error of that request, thrown as
    it is. *)
Theorem C6_rest_fallback :
  forall remote key text targetLanguage s,
    let prompt := make_prompt text targetLanguage in
    all_not_found remote modelNames prompt (calls s) ->
    let rest :=
      Post ("https://generativelanguage.googleapis.com/v1beta/models/gemini-pro:generateContent?key="
            ++ key)
           (VObj [("contents",
                   VArr [VObj [("parts", VArr [VObj [("text", VStr prompt)]])]])]) in
    let s' :=
      {| calls := calls s + 4;
         trace := (trace s
                   ++ [Call (Generate "gemini-1.5-flash" prompt);
                       Call (Generate "gemini-1.5-pro" prompt);
                       Call (Generate "gemini-pro" prompt);
                       Call rest])%list |} in
    (forall t,
        remote (calls s + 3) rest
        = Reply (VObj [("candidates",
                        VArr [VObj [("content",
                                     VObj [("parts",
                                            VArr [VObj [("text", t)]])])]])]) ->
        truthy t = true ->
        summarizeWithGemini remote key text targetLanguage s = (Ok t, s'))
    /\ (forall data t,
           remote (calls s + 3) rest = Reply data ->
           rest_text data = Some t ->
           truthy t = true ->
           summarizeWithGemini remote key text targetLanguage s = (Ok t, s'))
    /\ (forall data,
           remote (calls s + 3) rest = Reply data ->
           rest_text data = None
           \/ (exists t, rest_text data = Some t /\ truthy t = false) ->
           summarizeWithGemini remote key text targetLanguage s
           = (Throw (Error "Failed to get response from Gemini API"), s'))
    /\ (forall e,
           remote (calls s + 3) rest = Fault e ->
           summarizeWithGemini remote key text targetLanguage s = (Throw e, s')).
Proof.
  intros remote key text targetLanguage s prompt Hall rest s'.
  assert (Hchain : try_models remote modelNames prompt VNull s
                   = (Ok VNull, generated modelNames prompt s)).
  { rewrite <- (app_nil_r modelNames) at 1.
    now rewrite (try_models_skips remote modelNames [] prompt VNull s Hall). }
  pose proof (summarize_falls_back remote key text targetLanguage s VNull
                (generated modelNames prompt s) Hchain eq_refl) as Hrun.
  cbv zeta in Hrun.
  change (Post (rest_url key) (rest_body (make_prompt text targetLanguage)))
    with rest in Hrun.
  rewrite calls_generated in Hrun. change (length modelNames) with 3 in Hrun.
  assert (Hs' : called rest (generated modelNames prompt s) = s').
  { rewrite generated_state. unfold called, s'. cbn [calls trace].
    f_equal; [unfold modelNames; simpl; lia|].
    unfold modelNames. simpl. now rewrite <- app_assoc. }
  rewrite Hs' in Hrun.
  split; [|split; [|split]].
  - intros t Hd Ht. now rewrite Hrun, Hd; cbn [rest_text opt opt0 get assoc String.eqb];
      simpl; rewrite Ht.
  - intros data t Hd Ht Htruthy. now rewrite Hrun, Hd, Ht, Htruthy.
  - intros data Hd [Hno | (t & Ht & Hfalse)]; rewrite Hrun, Hd.
    + now rewrite Hno.
    + now rewrite Ht, Hfalse.
  - intros e He. now rewrite Hrun, He.
Qed.

Lemma C6_witness :
  summarizeWithGemini only_rest_answers "key" "Hemoglobin 13.5 g/dL" "Spanish"
    start
  = (Ok (VStr "Resumen del documento"),
     {| calls := 4;
        trace := [Call (Generate "gemini-1.5-flash"
                          (make_prompt "Hemoglobin 13.5 g/dL" "Spanish"));
                  Call (Generate "gemini-1.5-pro"
                          (make_prompt "Hemoglobin 13.5 g/dL" "Spanish"));
                  Call (Generate "gemini-pro"
                          (make_prompt "Hemoglobin 13.5 g/dL" "Spanish"));
                  Call (Post (rest_url "key")
                          (rest_body
                             (make_prompt "Hemoglobin 13.5 g/dL" "Spanish")))] |})
  /\ fst (summarizeWithGemini rest_without_text "key" "Hemoglobin 13.5 g/dL"
            "Spanish" start)
     = Throw (Error "Failed to get response from Gemini API")
  /\ fst (summarizeWithGemini rest_refused "key" "Hemoglobin 13.5 g/dL"
            "Spanish" start)
     = Throw forbidden.
Proof.
  assert (Hall : forall remote,
             (forall n name prompt,
                 remote n (Generate name prompt) = Fault model_missing) ->
             all_not_found remote modelNames
               (make_prompt "Hemoglobin 13.5 g/dL" "Spanish") (calls start)).
  { intros remote H j name Hj. exists model_missing. split; [apply H | reflexivity]. }
  split; [|split].
  - apply (C6_rest_fallback only_rest_answers "key" "Hemoglobin 13.5 g/dL"
             "Spanish" start (Hall _ (fun _ _ _ => eq_refl))); reflexivity.
  - destruct (C6_rest_fallback rest_without_text "key" "Hemoglobin 13.5 g/dL"
                "Spanish" start (Hall _ (fun _ _ _ => eq_refl)))
      as (_ & _ & Hnone & _).
    rewrite (Hnone (VObj [("candidates", VArr [])]) eq_refl (or_introl eq_refl)).
    reflexivity.
  - destruct (C6_rest_fallback rest_refused "key" "Hemoglobin 13.5 g/dL"
                "Spanish" start (Hall _ (fun _ _ _ => eq_refl)))
      as (_ & _ & _ & Hfault).
    rewrite (Hfault forbidden eq_refl). reflexivity.
Defined.

(** C6 as the specification words it fails when the REST request itself
    fails: the call does not end with the error that it raises when all
    models and the fallback gave no text, but with the error of the request,
    which is also what it throws when a model aborts the chain with that
    error. *)
Lemma C6_counterexample :
  summarizeWithGemini rest_refused "key" "Hemoglobin 13.5 g/dL" "Spanish" start
  = (Throw forbidden,
     {| calls := 4;
        trace := [Call (Generate "gemini-1.5-flash"
                          (make_prompt "Hemoglobin 13.5 g/dL" "Spanish"));
                  Call (Generate "gemini-1.5-pro"
                          (make_prompt "Hemoglobin 13.5 g/dL" "Spanish"));
                  Call (Generate "gemini-pro"
                          (make_prompt "Hemoglobin 13.5 g/dL" "Spanish"));
                  Call (Post (rest_url "key")
                          (rest_body
                             (make_prompt "Hemoglobin 13.5 g/dL" "Spanish")))] |})
  /\ forbidden <> Error "Failed to get response from Gemini API"
  /\ fst (summarizeWithGemini (fun _ _ => Fault forbidden) "key"
            "Hemoglobin 13.5 g/dL" "Spanish" start)
     = Throw forbidden.
Proof. split; [reflexivity|]. split; [discriminate | reflexivity]. Qed.

(** * Further properties of the pipeline *)

(** ** The result of [parseDocumentWithLlamaParse] *)

(** X1. A file whose extension is [.txt], in any case of the letters, and
    whose content is not empty is returned as it is read: no request is made
    and nothing is waited for. *)
Theorem text_file_is_read_directly :
  forall remote extname readFileSync filePath content s,
    toLowerCase (extname filePath) = ".txt" ->
    readFileSync filePath = Some content ->
    content <> "" ->
    parseDocumentWithLlamaParse remote extname readFileSync filePath s
    = (Ok (VStr content), s).
Proof.
  intros remote extname readFileSync filePath content s Hext Hread Hne.
  unfold parseDocumentWithLlamaParse, parse_body, try_catch, readTextFile.
  rewrite Hext, Hread. simpl.
  destruct (String.eqb_spec content ""); [contradiction | reflexivity].
Qed.

Lemma text_file_is_read_directly_witness :
  parseDocumentWithLlamaParse no_job txt_extname (reads "Take with food.")
    "uploads/note" start
  = (Ok (VStr "Take with food."), start).
Proof.
  apply text_file_is_read_directly; [reflexivity | reflexivity | discriminate].
Defined.

Lemma wrap_shape e :
  response (wrap e) = None
  /\ String.prefix "Failed to parse document with LlamaParse" (message (wrap e)) = true.
Proof.
  unfold wrap.
  destruct (truthy _); [split; reflexivity|].
  destruct (negb _); split; reflexivity.
Qed.

Lemma parse_body_returns_text remote extname readFileSync filePath s text s' :
  parse_body remote extname readFileSync filePath s = (Ok text, s') ->
  truthy text = true.
Proof.
  unfold parse_body.
  destruct (truthy (readTextFile extname readFileSync filePath)) eqn:Ht.
  - unfold ret. now intros [= <- <-].
  - unfold bind.
    destruct (call remote _ s) as [[data|e] s1]; [|discriminate].
    destruct (read "id" data s1) as [[id|e] s2]; [|discriminate].
    destruct (read "job_id" data s2) as [[job_id|e] s3]; [|discriminate].
    destruct (or_else id job_id) as [jobId|]; [|discriminate].
    destruct (truthy jobId); [|discriminate]. cbn [negb].
    destruct (poll_loop remote _ jobId 0 (VStr "") s3) as [[[attempts pt]|e] s4];
      [|discriminate].
    cbn [fst snd]. destruct (truthy pt) eqn:Hp; cbn [negb andb].
    + unfold ret. now intros [= <- <-].
    + destruct (maxAttempts <=? attempts)%nat; discriminate.
Qed.

Lemma parse_outcome remote extname readFileSync filePath s :
  match parseDocumentWithLlamaParse remote extname readFileSync filePath s with
  | (Ok text, _) => truthy text = true
  | (Throw e, _) =>
      response e = None
      /\ String.prefix "Failed to parse document with LlamaParse" (message e) = true
  end.
Proof.
  unfold parseDocumentWithLlamaParse, try_catch.
  destruct (parse_body remote extname readFileSync filePath s) as [[text|e] s'] eqn:E.
  - exact (parse_body_returns_text _ _ _ _ _ _ _ E).
  - unfold throw. apply wrap_shape.
Qed.

(** X2. Whatever the services answer, a text that the call returns is
    never empty, and an error that it throws is a plain error (it carries no
    response) whose message starts with the same words. *)
Theorem parse_returns_text_or_plain_error :
  forall remote extname readFileSync filePath s,
    match parseDocumentWithLlamaParse remote extname readFileSync filePath s with
    | (Ok text, _) => truthy text = true
    | (Throw e, _) =>
        response e = None
        /\ String.prefix "Failed to parse document with LlamaParse" (message e) = true
    end.
Proof. exact parse_outcome. Qed.

(** X3. When the upload itself fails, the call fails at once: the upload is
    the only request. The error quotes the body of the response of the
    server when there is one, and the message of the fault otherwise. *)
Theorem upload_fault_fails_at_once :
  forall remote extname readFileSync filePath s e,
    truthy (readTextFile extname readFileSync filePath) = false ->
    remote (calls s) (Upload LLAMAPARSE_API_URL filePath) = Fault e ->
    parseDocumentWithLlamaParse remote extname readFileSync filePath s
    = (Throw (wrap e), called (Upload LLAMAPARSE_API_URL filePath) s)
    /\ (forall r, response e = Some r -> truthy (resp_data r) = true ->
                  wrap e = parse_failure (stringify (resp_data r)))
    /\ (response e = None -> message e <> "" ->
        wrap e = parse_failure (message e)).
Proof.
  intros remote extname readFileSync filePath s e Ht Hu. split; [|split].
  - unfold parseDocumentWithLlamaParse, parse_body, try_catch, bind.
    now rewrite Ht, (call_fault _ _ _ _ Hu).
  - intros r Hr Hd. unfold wrap. now rewrite Hr, Hd.
  - intros Hr Hm. unfold wrap. rewrite Hr. cbn [truthy].
    destruct (String.eqb_spec (message e) ""); [contradiction | reflexivity].
Qed.

Lemma upload_fault_fails_at_once_witness :
  parseDocumentWithLlamaParse upload_rejected pdf_extname unread "uploads/scan" start
  = (Throw (parse_failure (stringify (VObj [("detail", VStr "Invalid API key")]))),
     called (Upload LLAMAPARSE_API_URL "uploads/scan") start).
Proof.
  destruct (upload_fault_fails_at_once upload_rejected pdf_extname unread
              "uploads/scan" start rejected eq_refl eq_refl)
    as (Hrun & Hbody & _).
  rewrite Hrun. rewrite (Hbody _ eq_refl eq_refl). reflexivity.
Defined.

(** ** A job that finishes *)

Section Finishing.

Variable remote : nat -> request -> reply.
Variable jobId : value.

Lemma calls_repeat_quiet n s :
  calls (repeat_step n (quiet_iteration jobId) s) = calls s + n.
Proof.
  revert s. induction n as [|n IH]; intros s; simpl.
  - now rewrite Nat.add_0_r.
  - rewrite IH. simpl. lia.
Qed.

(** Iterations that find the job pending only move the loop forward. *)
Lemma poll_loop_pending_prefix text n :
  forall left attempts s,
    (forall j, j < n -> exists d,
        remote (calls s + j) (Get (status_v1 jobId)) = Reply d
        /\ classify (get "status" d) = Pending) ->
    poll_loop remote (n + left) jobId attempts text s
    = poll_loop remote left jobId (attempts + n) text
        (repeat_step n (quiet_iteration jobId) s).
Proof.
  induction n as [|n IH]; intros left attempts s Hall.
  - simpl. now rewrite Nat.add_0_r.
  - destruct (Hall 0 ltac:(lia)) as (d & Hd & Hc). rewrite Nat.add_0_r in Hd.
    assert (Honce : poll_once remote jobId text s
                    = (Ok (Next text), quiet_iteration jobId s)).
    { apply (poll_once_transient remote jobId text s d).
      - now apply status_query_v1.
      - intros ->. discriminate Hc.
      - now left. }
    simpl. unfold bind. rewrite Honce. rewrite IH.
    + now rewrite Nat.add_succ_r.
    + intros j Hj. destruct (Hall (S j) ltac:(lia)) as (d' & Hd' & Hc').
      exists d'. split; [|exact Hc'].
      simpl. now rewrite <- Nat.add_succ_r.
Qed.

(** A success response that holds [markdown] ends the loop with it, and no
    other endpoint is asked. *)
Lemma poll_once_markdown text s d v :
  remote (calls s) (Get (status_v1 jobId)) = Reply d ->
  classify (get "status" d) = Success ->
  field "markdown" d = Some v ->
  poll_once remote jobId text s = (Ok (Break v), success_iteration jobId s).
Proof.
  intros Hd Hc Hm.
  assert (Hnn : d <> VNull) by (intros ->; discriminate Hc).
  rewrite (poll_once_answered remote jobId text s d (quiet_iteration jobId s));
    [|now apply status_query_v1|exact Hnn].
  rewrite Hc. unfold try_catch, on_success, bind, sleep, fetch_document.
  assert (Hhas : hasResult d = true).
  { unfold hasResult, has. now rewrite Hm. }
  rewrite Hhas. change (negb true) with false. unfold ret.
  destruct d as [| | | | |fields]; try (vm_compute in Hc; discriminate).
  cbv beta iota zeta delta [object_keys ret].
  assert (Hex : extract text (VObj fields) = v).
  { unfold extract. now rewrite Hm. }
  rewrite Hex, (field_truthy _ _ _ Hm). reflexivity.
Qed.

End Finishing.

(** X4. A job that is pending for [n] iterations, with [n] below the
    budget, and then reports success with a [markdown] field yields the
    value of that field. The loop stops there: after the upload the call
    makes [n + 1] status queries, each after the polling delay, and no other
    request. *)
Theorem pending_then_markdown :
  forall remote extname readFileSync filePath s data jobId n d v,
    truthy (readTextFile extname readFileSync filePath) = false ->
    remote (calls s) (Upload LLAMAPARSE_API_URL filePath) = Reply data ->
    data <> VNull ->
    or_else (get "id" data) (get "job_id" data) = Some jobId ->
    truthy jobId = true ->
    n < maxAttempts ->
    (forall j, j < n -> exists d',
        remote (S (calls s) + j) (Get (status_v1 jobId)) = Reply d'
        /\ classify (get "status" d') = Pending) ->
    remote (S (calls s) + n) (Get (status_v1 jobId)) = Reply d ->
    classify (get "status" d) = Success ->
    field "markdown" d = Some v ->
    parseDocumentWithLlamaParse remote extname readFileSync filePath s
    = (Ok v,
       success_iteration jobId
         (repeat_step n (quiet_iteration jobId)
            (called (Upload LLAMAPARSE_API_URL filePath) s))).
Proof.
  intros remote extname readFileSync filePath s data jobId n d v
         Ht Hu Hnn Hid Hj Hn Hpending Hd Hc Hm.
  apply (parse_loop_text remote extname readFileSync filePath s data jobId
           Ht Hu Hnn Hid Hj (0 + n) v); [|exact (field_truthy _ _ _ Hm)].
  replace maxAttempts with (n + S (maxAttempts - S n)) by lia.
  rewrite (poll_loop_pending_prefix remote jobId (VStr "") n) by exact Hpending.
  simpl poll_loop. unfold bind.
  rewrite (poll_once_markdown remote jobId (VStr "") _ d v); try assumption.
  - reflexivity.
  - now rewrite calls_repeat_quiet.
Qed.

Lemma pending_then_markdown_witness :
  parseDocumentWithLlamaParse pending_twice pdf_extname unread "uploads/scan" start
  = (Ok (VStr "# Lab report"),
     success_iteration job1
       (repeat_step 2 (quiet_iteration job1)
          (called (Upload LLAMAPARSE_API_URL "uploads/scan") start))).
Proof.
  apply (pending_then_markdown pending_twice pdf_extname unread "uploads/scan"
           start job_reply job1 2 done_body (VStr "# Lab report")).
  - reflexivity.
  - reflexivity.
  - discriminate.
  - reflexivity.
  - reflexivity.
  - unfold maxAttempts. lia.
  - intros j Hj. exists pending_body.
    destruct j as [|[|j]]; [split; reflexivity | split; reflexivity | lia].
  - reflexivity.
  - reflexivity.
  - reflexivity.
Defined.

(** ** The cost of a run *)

Lemma polls_app a b : polls (a ++ b) = polls a + polls b.
Proof.
  induction a as [|e a IH]; [reflexivity|].
  destruct e as [ms|r]; simpl; [|exact IH].
  destruct ms as [|p|p]; try exact IH.
  repeat (destruct p as [p|p|]; try exact IH). now rewrite IH.
Qed.

Lemma within_ret {A} (a : A) : within 0 0 (ret a).
Proof. intros s. simpl. lia. Qed.

Lemma within_throw {A} e : within 0 0 (@throw A e).
Proof. intros s. simpl. lia. Qed.

Lemma within_weaken {A} k p k' p' (m : M A) :
  within k p m -> k <= k' -> p <= p' -> within k' p' m.
Proof. intros H Hk Hp s. destruct (H s). lia. Qed.

Lemma within_bind {A B} k1 p1 k2 p2 (m : M A) (f : A -> M B) :
  within k1 p1 m -> (forall a, within k2 p2 (f a)) ->
  within (k1 + k2) (p1 + p2) (bind m f).
Proof.
  intros Hm Hf s. unfold bind. specialize (Hm s).
  destruct (m s) as [[a|e] s1]; simpl in Hm.
  - specialize (Hf a s1). lia.
  - simpl. lia.
Qed.

Lemma within_try_catch {A} k1 p1 k2 p2 (m : M A) (h : js_error -> M A) :
  within k1 p1 m -> (forall e, within k2 p2 (h e)) ->
  within (k1 + k2) (p1 + p2) (try_catch m h).
Proof.
  intros Hm Hh s. unfold try_catch. specialize (Hm s).
  destruct (m s) as [[a|e] s1]; simpl in Hm.
  - simpl. lia.
  - specialize (Hh e s1). lia.
Qed.

Lemma within_attempt {A} k p (m : M A) : within k p m -> within k p (attempt m).
Proof.
  intros Hm s. unfold attempt. specialize (Hm s).
  destruct (m s) as [[a|e] s1]; exact Hm.
Qed.

Lemma within_call remote r : within 1 0 (call remote r).
Proof.
  intros s. unfold call.
  destruct (remote (calls s) r); simpl; rewrite polls_app; simpl; lia.
Qed.

Lemma within_poll_delay : within 0 1 (sleep 2000).
Proof. intros s. simpl. rewrite polls_app. simpl. lia. Qed.

Lemma within_short_delay : within 0 0 (sleep 1000).
Proof. intros s. simpl. rewrite polls_app. simpl. lia. Qed.

Lemma within_read k v : within 0 0 (read k v).
Proof. destruct v; (apply within_throw || apply within_ret). Qed.

Lemma within_object_keys v : within 0 0 (object_keys v).
Proof. destruct v; (apply within_throw || apply within_ret). Qed.

Section Costs.

Variable remote : nat -> request -> reply.

Lemma within_status_query jobId : within 2 0 (status_query remote jobId).
Proof.
  apply (within_try_catch 1 0 1 0); [apply within_call|].
  intros _. apply within_call.
Qed.

Lemma within_try_endpoints endpoints :
  forall documentData,
    within (length endpoints) 0 (try_endpoints remote endpoints documentData).
Proof.
  induction endpoints as [|endpoint rest IH]; intros documentData; simpl.
  - apply within_ret.
  - apply (within_bind 1 0 (length rest) 0).
    + apply within_attempt, within_call.
    + intros [data|e]; [|apply IH].
      destruct data; try apply IH;
        (eapply within_weaken; [apply within_ret | lia | lia]).
Qed.

Lemma within_fresh_status jobId statusData :
  within 2 0 (fresh_status remote jobId statusData).
Proof.
  apply (within_try_catch 1 0 1 0); [apply within_call|].
  intros _. apply (within_try_catch 1 0 0 0); [apply within_call|].
  intros _. apply within_ret.
Qed.

Lemma within_fetch_document jobId statusData :
  within 8 0 (fetch_document remote jobId statusData).
Proof.
  unfold fetch_document. destruct (negb (hasResult statusData)).
  - apply (within_bind 6 0 2 0).
    + apply (within_try_endpoints (resultEndpoints jobId)).
    + intros found. destruct (negb (fst found)).
      * apply within_fresh_status.
      * eapply within_weaken; [apply within_ret | lia | lia].
  - eapply within_weaken; [apply within_ret | lia | lia].
Qed.

Lemma within_on_success jobId statusData parsedText :
  within 8 0 (on_success remote jobId statusData parsedText).
Proof.
  unfold on_success.
  apply (within_bind 0 0 8 0); [apply within_short_delay|]. intros _.
  apply (within_bind 8 0 0 0); [apply within_fetch_document|]. intros d.
  apply (within_bind 0 0 0 0); [apply within_object_keys|]. intros _.
  cbv zeta. destruct (truthy _); apply within_ret.
Qed.

Lemma within_poll_once jobId parsedText :
  within 10 1 (poll_once remote jobId parsedText).
Proof.
  unfold poll_once.
  apply (within_bind 0 1 10 0); [apply within_poll_delay|]. intros _.
  apply (within_try_catch 10 0 0 0).
  - apply (within_bind 2 0 8 0); [apply within_status_query|]. intros d.
    apply (within_bind 0 0 8 0); [apply within_read|]. intros st.
    destruct (classify st).
    + apply within_on_success.
    + eapply within_weaken; [apply within_throw | lia | lia].
    + eapply within_weaken; [apply within_ret | lia | lia].
    + eapply within_weaken; [apply within_ret | lia | lia].
  - intros e. destruct (is404 e); [apply within_throw | apply within_ret].
Qed.

Lemma within_poll_loop jobId left :
  forall attempts parsedText,
    within (10 * left) left (poll_loop remote left jobId attempts parsedText).
Proof.
  induction left as [|left IH]; intros attempts parsedText; simpl poll_loop.
  - apply within_ret.
  - eapply within_weaken.
    + apply (within_bind 10 1 (10 * left) left); [apply within_poll_once|].
      intros [text|text]; [|apply IH].
      eapply within_weaken; [apply within_ret | lia | lia].
    + lia.
    + lia.
Qed.

Lemma within_parse extname readFileSync filePath :
  within 601 60
    (parseDocumentWithLlamaParse remote extname readFileSync filePath).
Proof.
  unfold parseDocumentWithLlamaParse.
  apply (within_try_catch 601 60 0 0); [|intros e; apply within_throw].
  unfold parse_body. destruct (truthy (readTextFile _ _ _)).
  - eapply within_weaken; [apply within_ret | lia | lia].
  - apply (within_bind 1 0 600 60); [apply within_call|]. intros data.
    apply (within_bind 0 0 600 60); [apply within_read|]. intros id.
    apply (within_bind 0 0 600 60); [apply within_read|]. intros job_id.
    destruct (or_else id job_id) as [jobId|];
      [|eapply within_weaken; [apply within_throw | lia | lia]].
    destruct (negb (truthy jobId));
      [eapply within_weaken; [apply within_throw | lia | lia]|].
    apply (within_bind 600 60 0 0).
    + apply (within_poll_loop jobId 60).
    + intros r. cbv zeta.
      destruct (_ && _); [apply within_throw|].
      destruct (negb _); [apply within_throw | apply within_ret].
Qed.

End Costs.

(** X5. Whatever the services answer, one call polls at most [maxAttempts]
    times and makes at most 601 requests: the upload and, for each
    iteration, at most two status queries, six result endpoints and two
    fresh status queries. *)
Theorem parse_stays_within_budget :
  forall remote extname readFileSync filePath s,
    let s' := snd (parseDocumentWithLlamaParse remote extname readFileSync filePath s) in
    polls (trace s') <= polls (trace s) + maxAttempts
    /\ calls s' <= calls s + (1 + maxAttempts * (2 + 6 + 2)).
Proof.
  intros remote extname readFileSync filePath s s'.
  destruct (within_parse remote extname readFileSync filePath s) as [Hc Hp].
  split; [exact Hp | exact Hc].
Qed.

(** ** Where the document comes from *)

Section Document.

Variable remote : nat -> request -> reply.

Lemma queried_app pre rest s :
  queried (pre ++ rest) s = queried rest (queried pre s).
Proof. unfold queried. apply fold_left_app. Qed.

Lemma calls_queried urls s : calls (queried urls s) = calls s + length urls.
Proof.
  revert s. induction urls as [|u urls IH]; intros s; simpl.
  - now rewrite Nat.add_0_r.
  - rewrite IH. simpl. lia.
Qed.

Lemma try_endpoints_skips pre rest :
  forall documentData s,
    all_unusable remote pre (calls s) ->
    exists documentData',
      try_endpoints remote (pre ++ rest) documentData s
      = try_endpoints remote rest documentData' (queried pre s).
Proof.
  induction pre as [|u pre IH]; intros documentData s Hall.
  - now exists documentData.
  - assert (Hrest : all_unusable remote pre (calls (called (Get u) s))).
    { intros j url Hj. simpl. rewrite <- Nat.add_succ_r. now apply Hall. }
    simpl. unfold bind, attempt, call.
    destruct (Hall 0 u eq_refl) as [H | (e & H)];
      rewrite Nat.add_0_r in H; rewrite H; now apply IH.
Qed.

End Document.

(** X6. The result endpoints are asked in order, and the first one that
    answers with a body other than [null] gives the document: endpoints that
    failed or answered [null] before it are passed over, and no endpoint
    after it is asked. *)
Theorem first_usable_endpoint_wins :
  forall remote pre endpoint post documentData s data,
    all_unusable remote pre (calls s) ->
    remote (calls s + length pre) (Get endpoint) = Reply data ->
    data <> VNull ->
    try_endpoints remote (pre ++ endpoint :: post) documentData s
    = (Ok (true, data), queried (pre ++ [endpoint]) s).
Proof.
  intros remote pre endpoint post documentData s data Hall Hd Hnn.
  destruct (try_endpoints_skips remote pre (endpoint :: post) documentData s Hall)
    as (d' & ->).
  rewrite queried_app. simpl. unfold bind, attempt, call.
  rewrite calls_queried, Hd.
  destruct data; try congruence; reflexivity.
Qed.

Lemma first_usable_endpoint_wins_witness :
  try_endpoints second_endpoint_answers (resultEndpoints job1) bare_success start
  = (Ok (true, VObj [("markdown", VStr "# Lab report")]),
     queried [status_v1 job1 ++ "/result"; status_v1 job1 ++ "/download"] start).
Proof.
  apply (first_usable_endpoint_wins second_endpoint_answers
           [status_v1 job1 ++ "/result"] (status_v1 job1 ++ "/download")
           [status_legacy job1 ++ "/result"; status_legacy job1 ++ "/download";
            status_legacy job1 ++ "/content"; status_legacy job1 ++ "/parsed"]).
  - intros j url Hj. destruct j as [|[|j]]; try discriminate.
    right. now exists not_found_fault.
  - reflexivity.
  - discriminate.
Defined.

(** X7. Fetching the document never throws and makes at most eight
    requests. A status response that shows a result under [markdown],
    [text], [content], [result], [data] or [parsed_content] is the document,
    and then no request is made at all. *)
Theorem fetch_document_is_safe :
  forall remote jobId statusData s,
    (exists documentData s',
        fetch_document remote jobId statusData s = (Ok documentData, s')
        /\ calls s' <= calls s + 8)
    /\ (hasResult statusData = true ->
        fetch_document remote jobId statusData s = (Ok statusData, s)).
Proof.
  intros remote jobId statusData s. split.
  - destruct (fetch_document_returns remote jobId statusData s) as (d & s' & H).
    exists d, s'. split; [exact H|].
    destruct (within_fetch_document remote jobId statusData s) as [Hc _].
    now rewrite H in Hc.
  - intros Hhas. unfold fetch_document. now rewrite Hhas.
Qed.

Lemma fetch_document_is_safe_witness :
  fetch_document (fixed_status done_body) job1 done_body start
  = (Ok done_body, start).
Proof.
  apply (fetch_document_is_safe (fixed_status done_body) job1 done_body start).
  reflexivity.
Defined.

(** ** The threshold of the search *)

(** X8. The search for a text returns [null] or a string of the tree that
    is longer than 100 characters: a string of exactly 100 characters is
    not taken. A tree whose strings all have at most 100 characters gives
    [null]. *)
Theorem search_threshold :
  forall tree,
    (findTextInObject tree = VNull
     \/ exists s, findTextInObject tree = VStr s
                  /\ In s (strings_dfs tree)
                  /\ 101 <= String.length s)
    /\ ((forall s, In s (strings_dfs tree) -> String.length s <= 100) ->
        findTextInObject tree = VNull).
Proof.
  intros tree. rewrite findText_first_long. unfold first_long_string.
  destruct (find _ (strings_dfs tree)) as [s|] eqn:E; simpl.
  - apply find_some in E. destruct E as [Hin Hlen].
    apply Nat.ltb_lt in Hlen. split.
    + right. exists s. repeat split; [exact Hin | lia].
    + intros Hall. specialize (Hall s Hin). lia.
  - split; [now left | reflexivity].
Qed.

Lemma search_threshold_witness :
  findTextInObject
    (VObj [("note", VStr (String.concat "" (repeat "0123456789" 10)))])
  = VNull.
Proof.
  apply search_threshold. intros s [<- | []]. vm_compute. lia.
Defined.

(** ** The result of [summarizeWithGemini] *)

Section Summary.

Variable remote : nat -> request -> reply.

(** How the loop over the models ends: with the text of the [k]-th model,
    with its error, or with [summary] untouched after all of them. *)
Lemma try_models_ends names prompt summary :
  forall s,
    (exists k, 1 <= k <= length names
               /\ snd (try_models remote names prompt summary s)
                  = generated (firstn k names) prompt s)
    \/ try_models remote names prompt summary s
       = (Ok summary, generated names prompt s).
Proof.
  induction names as [|m names IH]; intros s; [now right|].
  simpl try_models. unfold bind, attempt, call.
  destruct (remote (calls s) (Generate m prompt)) as [t|e].
  - left. exists 1. split; [simpl; lia | reflexivity].
  - destruct (model_not_found e).
    + destruct (IH (called (Generate m prompt) s)) as [(k & Hk & H) | H].
      * left. exists (S k). split; [simpl; lia | exact H].
      * right. exact H.
    + left. exists 1. split; [simpl; lia | reflexivity].
Qed.

End Summary.

Lemma summarize_returns_text remote key text targetLanguage s summary s' :
  summarizeWithGemini remote key text targetLanguage s = (Ok summary, s') ->
  truthy summary = true.
Proof.
  unfold summarizeWithGemini, try_catch, bind.
  destruct (try_models remote modelNames _ VNull s) as [[t|e] s1];
    [|discriminate].
  destruct (truthy t) eqn:Ht; cbn [negb].
  - unfold ret. now intros [= <- <-].
  - destruct (call remote _ s1) as [[data|e] s2]; [|discriminate].
    destruct (rest_text data) as [t'|]; [|discriminate].
    destruct (truthy t') eqn:Ht'; [|discriminate].
    unfold ret. now intros [= <- <-].
Qed.

(** X9. A summary that the call returns is never empty: an empty text of a
    model or of the REST endpoint is not returned. *)
Theorem summary_is_never_empty :
  forall remote key text targetLanguage s summary s',
    summarizeWithGemini remote key text targetLanguage s = (Ok summary, s') ->
    truthy summary = true.
Proof. exact summarize_returns_text. Qed.

Lemma summary_is_never_empty_witness :
  fst (summarizeWithGemini empty_then_rest "key" "Hemoglobin 13.5 g/dL"
         "Spanish" start)
  = Ok (VStr "Resumen del documento")
  /\ truthy (VStr "Resumen del documento") = true.
Proof.
  split; [reflexivity|].
  apply (summary_is_never_empty empty_then_rest "key" "Hemoglobin 13.5 g/dL"
           "Spanish" start (VStr "Resumen del documento")
           (called (Post (rest_url "key")
                      (rest_body (make_prompt "Hemoglobin 13.5 g/dL" "Spanish")))
              (called (Generate "gemini-1.5-flash"
                         (make_prompt "Hemoglobin 13.5 g/dL" "Spanish")) start))).
  reflexivity.
Defined.

(** X10. Whatever the services answer, one call asks the models of the
    list in order, at least the first and at most all three, and then makes
    at most one REST request; every request carries the same prompt, and
    nothing else is requested or waited for. *)
Theorem summary_requests :
  forall remote key text targetLanguage s,
    let prompt := make_prompt text targetLanguage in
    let s' := snd (summarizeWithGemini remote key text targetLanguage s) in
    exists k,
      1 <= k <= 3
      /\ (s' = generated (firstn k modelNames) prompt s
          \/ s' = called (Post (rest_url key) (rest_body prompt))
                    (generated (firstn k modelNames) prompt s)).
Proof.
  intros remote key text targetLanguage s prompt s'. unfold s'.
  unfold summarizeWithGemini, try_catch, bind. fold prompt.
  destruct (try_models_ends remote modelNames prompt VNull s)
    as [(k & Hk & H) | H].
  - exists k. split; [exact Hk|]. revert H.
    destruct (try_models remote modelNames prompt VNull s) as [[t|e] s1];
      simpl snd; intros ->; [|now left].
    destruct (negb (truthy t)); [|now left].
    right. unfold call.
    destruct (remote _ _) as [data|e]; [|reflexivity].
    destruct (rest_text data) as [t'|]; [|reflexivity].
    destruct (truthy t'); reflexivity.
  - exists 3. split; [lia|]. rewrite H. cbn [truthy negb]. right.
    unfold call.
    destruct (remote _ _) as [data|e]; [|reflexivity].
    destruct (rest_text data) as [t'|]; [|reflexivity].
    destruct (truthy t'); reflexivity.
Qed.

(** ** The route *)

Section RouteFacts.

Variable remote : nat -> request -> reply.
Variable extname : string -> string.
Variable readFileSync : string -> option string.
Variable key : string.
Variable existsSync : string -> bool.
Variable NODE_ENV : option string.
Variable stack : js_error -> string.
Variable member_text : string -> string.
Variable member_json : string -> option value.

Let parse := parseDocumentWithLlamaParse remote extname readFileSync.
Let body_of := route_body remote extname readFileSync key existsSync
                 member_text member_json.
Let reply_with := summarize_and_reply remote key existsSync member_text member_json.

(** When the call has thrown, the file is not a text file that can be read:
    the call would have returned its content. *)
Lemma parse_throws_no_text filePath s e s1 :
  parse filePath s = (Throw e, s1) ->
  truthy (readTextFile extname readFileSync filePath) = false.
Proof.
  unfold parse, parseDocumentWithLlamaParse, parse_body, try_catch.
  destruct (truthy (readTextFile extname readFileSync filePath)); [|reflexivity].
  discriminate.
Qed.

Lemma route_parsed filePath c language s v s1 :
  parse filePath s = (Ok v, s1) ->
  body_of (Some filePath) (Some (String c language)) s
  = reply_with filePath (target_of (String c language)) v s1.
Proof.
  intros H. unfold body_of, route_body, bind, attempt. fold parse.
  now rewrite H.
Qed.

Lemma route_parse_thrown filePath c language s e s1 :
  parse filePath s = (Throw e, s1) ->
  body_of (Some filePath) (Some (String c language)) s
  = (Ok (parse_failed (message e), false), s1).
Proof.
  intros H. unfold body_of, route_body, bind, attempt. fold parse.
  rewrite H. cbv beta iota zeta.
  now rewrite (parse_throws_no_text _ _ _ _ H).
Qed.

Lemma reply_well_formed filePath targetLanguage v s a removed s' :
  reply_with filePath targetLanguage v s = (Ok (a, removed), s') ->
  well_formed a removed.
Proof.
  assert (Hno : well_formed no_text_extracted false).
  { right. split; [now right|]. exists "Failed to parse document".
    split; [reflexivity | discriminate]. }
  unfold reply_with, summarize_and_reply.
  destruct v as [| | |text| |];
    try (destruct (negb (truthy _)); unfold ret, throw;
         [intros [= <- <- <-]; exact Hno | discriminate]).
  destruct (negb (truthy (VStr text)) || _);
    [unfold ret; intros [= <- <- <-]; exact Hno|].
  unfold bind.
  destruct (summarizeWithGemini remote key text _ s) as [[summary|e] s1] eqn:E;
    [|discriminate].
  destruct (unlinkSync existsSync filePath s1) as [[u|e] s2]; [|discriminate].
  unfold ret. intros [= <- <- <-]. left.
  repeat split. exists summary. split; [reflexivity|].
  exact (summarize_returns_text _ _ _ _ _ _ _ E).
Qed.

Lemma route_body_well_formed file language s a removed s' :
  body_of file language s = (Ok (a, removed), s') -> well_formed a removed.
Proof.
  destruct file as [filePath|].
  - destruct language as [[|c language]|].
    + unfold body_of, route_body, ret. intros [= <- <- <-].
      right. split; [now left|]. exists "Language not specified".
      split; [reflexivity | discriminate].
    + destruct (parse filePath s) as [[v|e] s1] eqn:E.
      * rewrite (route_parsed _ _ _ _ _ _ E). apply reply_well_formed.
      * rewrite (route_parse_thrown _ _ _ _ _ _ E). intros [= <- <- <-].
        right. split; [now right|].
        exists "Failed to parse document with LlamaParse".
        split; [reflexivity | discriminate].
    + unfold body_of, route_body, ret. intros [= <- <- <-].
      right. split; [now left|]. exists "Language not specified".
      split; [reflexivity | discriminate].
  - unfold body_of, route_body, ret. intros [= <- <- <-].
    right. split; [now left|]. exists "No file uploaded".
    split; [reflexivity | discriminate].
Qed.

Lemma route_answers file language s :
  exists a removed s',
    process_document remote extname readFileSync key existsSync NODE_ENV stack
      member_text member_json file language s
    = (Ok (a, removed), s')
    /\ well_formed a removed.
Proof.
  unfold process_document, try_catch. fold body_of.
  destruct (body_of file language s) as [[[a removed]|e] s1] eqn:E.
  - exists a, removed, s1. split; [reflexivity|].
    exact (route_body_well_formed _ _ _ _ _ _ E).
  - unfold ret. eexists _, _, s1. split; [reflexivity|].
    right. split; [now right|]. exists "Failed to process document".
    split; [reflexivity | discriminate].
Qed.

Lemma length_zero (x : string) : (String.length x =? 0)%nat = true <-> x = "".
Proof. destruct x; simpl; split; intros H; congruence. Qed.

Lemma reply_blank filePath targetLanguage text s :
  trim text = "" ->
  reply_with filePath targetLanguage (VStr text) s
  = (Ok (no_text_extracted, false), s).
Proof.
  intros Hb. unfold reply_with, summarize_and_reply.
  rewrite (proj2 (length_zero _) Hb). now rewrite orb_true_r.
Qed.

Lemma reply_summarizes filePath targetLanguage text s :
  trim text <> "" ->
  reply_with filePath targetLanguage (VStr text) s
  = (summary <- summarizeWithGemini remote key text
                  (target_text member_text targetLanguage) ;;
     unlinkSync existsSync filePath ;;
     ret ({| code := 200;
             body := VObj (json_object
                             [("success", Some (VBool true));
                              ("summary", Some summary);
                              ("originalLanguage", Some (VStr "English"));
                              ("targetLanguage",
                               target_json member_json targetLanguage)]) |},
          true)) s.
Proof.
  intros Hb. unfold reply_with, summarize_and_reply.
  assert (Hne : text <> "") by (intros ->; now apply Hb).
  destruct (String.length (trim text) =? 0)%nat eqn:E;
    [now apply length_zero in E|].
  cbn [truthy]. destruct (String.eqb_spec text ""); [contradiction|].
  reflexivity.
Qed.

Lemma reply_not_a_string filePath targetLanguage v s :
  truthy v = true ->
  (forall text, v <> VStr text) ->
  reply_with filePath targetLanguage v s
  = (Throw (Error "parsedText.trim is not a function"), s).
Proof.
  intros Ht Hns. unfold reply_with, summarize_and_reply.
  destruct v; try (now rewrite Ht). now destruct (Hns s0).
Qed.

End RouteFacts.

Lemma own_is_identity language v : own language languageMap = Some v -> v = language.
Proof.
  unfold languageMap. simpl.
  repeat match goal with
         | |- context [language =? ?k] =>
             destruct (String.eqb_spec language k) as [->|_];
             [now intros [= <-]|]
         end.
  discriminate.
Qed.

Lemma target_is_language language :
  inherited language = false -> target_of language = Text language.
Proof.
  intros Hin. unfold target_of.
  destruct (own language languageMap) as [v|] eqn:E.
  - apply own_is_identity in E. subst v. now destruct (language =? "").
  - now rewrite Hin.
Qed.

(** X11. The route always answers: no exception leaves the handler. The
    answer is a success with the code 200, a non-empty summary and the
    upload removed, or a failure with the code 400 or 500 and a title under
    [error]. *)
Theorem route_always_answers :
  forall remote extname readFileSync key existsSync NODE_ENV stack
         member_text member_json file language s,
  exists a removed s',
    process_document remote extname readFileSync key existsSync NODE_ENV stack
      member_text member_json file language s
    = (Ok (a, removed), s')
    /\ well_formed a removed.
Proof. exact route_answers. Qed.

(** X12. A request without a file, and a request without a language or
    with an empty one, is answered with the code 400 before any service is
    called; the upload of a request that lacks only the language stays in
    storage. *)
Theorem route_rejects_incomplete_requests :
  forall remote extname readFileSync key existsSync NODE_ENV stack
         member_text member_json s,
    let route := process_document remote extname readFileSync key existsSync
                   NODE_ENV stack member_text member_json in
    (forall language,
        route None language s
        = (Ok ({| code := 400; body := VObj [("error", VStr "No file uploaded")] |},
               false), s))
    /\ (forall filePath language,
           language = None \/ language = Some "" ->
           route (Some filePath) language s
           = (Ok ({| code := 400;
                     body := VObj [("error", VStr "Language not specified")] |},
                  false), s)).
Proof.
  intros. split.
  - reflexivity.
  - intros filePath language [-> | ->]; reflexivity.
Qed.

Lemma route_rejects_incomplete_requests_witness :
  process_document all_answer pdf_extname unread "key" stored None no_stack
    no_member_text no_member_json (Some "uploads/scan") (Some "") start
  = (Ok ({| code := 400;
            body := VObj [("error", VStr "Language not specified")] |},
         false), start).
Proof.
  apply (route_rejects_incomplete_requests all_answer pdf_extname unread "key"
           stored None no_stack no_member_text no_member_json start).
  now right.
Defined.

(** X13. When parsing fails, the route answers with the code 500 and the
    message of the error, calls no summarization service, and returns
    without removing the upload, which stays in storage. *)
Theorem route_parse_failure_keeps_upload :
  forall remote extname readFileSync key existsSync NODE_ENV stack
         member_text member_json filePath language s e s1,
    language <> "" ->
    parseDocumentWithLlamaParse remote extname readFileSync filePath s
    = (Throw e, s1) ->
    process_document remote extname readFileSync key existsSync NODE_ENV stack
      member_text member_json (Some filePath) (Some language) s
    = (Ok (parse_failed (message e), false), s1).
Proof.
  intros remote extname readFileSync key existsSync NODE_ENV stack
         member_text member_json filePath language s e s1 Hl Hp.
  destruct language as [|c language]; [contradiction|].
  unfold process_document, try_catch.
  now rewrite (route_parse_thrown remote extname readFileSync key existsSync
                 member_text member_json _ _ _ _ _ _ Hp).
Qed.

Lemma route_parse_failure_keeps_upload_witness :
  process_document no_job pdf_extname unread "key" stored None no_stack
    no_member_text no_member_json (Some "uploads/scan") (Some "Spanish") start
  = (Ok (parse_failed
           ("Failed to parse document with LlamaParse: No job ID returned from LlamaParse. Response: "
            ++ stringify (VObj [("status", VStr "accepted")])),
         false),
     called (Upload LLAMAPARSE_API_URL "uploads/scan") start).
Proof.
  apply (route_parse_failure_keeps_upload no_job pdf_extname unread "key" stored
           None no_stack no_member_text no_member_json "uploads/scan" "Spanish"
           start
           (parse_failure
              ("No job ID returned from LlamaParse. Response: "
               ++ stringify (VObj [("status", VStr "accepted")])))).
  - discriminate.
  - reflexivity.
Defined.

(** X14. The second attempt of the route to read the upload as a text
    file, after parsing has failed, cannot succeed: whenever the call throws,
    [readTextFile] gives nothing for that file. *)
Theorem text_fallback_is_unreachable :
  forall remote extname readFileSync filePath s e s1,
    parseDocumentWithLlamaParse remote extname readFileSync filePath s
    = (Throw e, s1) ->
    truthy (readTextFile extname readFileSync filePath) = false.
Proof. exact parse_throws_no_text. Qed.

Lemma text_fallback_is_unreachable_witness :
  truthy (readTextFile pdf_extname unread "uploads/scan") = false.
Proof.
  apply (text_fallback_is_unreachable no_job pdf_extname unread "uploads/scan"
           start
           (parse_failure
              ("No job ID returned from LlamaParse. Response: "
               ++ stringify (VObj [("status", VStr "accepted")])))
           (called (Upload LLAMAPARSE_API_URL "uploads/scan") start)).
  reflexivity.
Defined.

(** X15. A parsed text that holds white space only is refused: the route
    answers with the code 500 and the message that no text was extracted,
    without calling the summarization service and without removing the
    upload. *)
Theorem route_refuses_blank_text :
  forall remote extname readFileSync key existsSync NODE_ENV stack
         member_text member_json filePath language s text s1,
    language <> "" ->
    parseDocumentWithLlamaParse remote extname readFileSync filePath s
    = (Ok (VStr text), s1) ->
    trim text = "" ->
    process_document remote extname readFileSync key existsSync NODE_ENV stack
      member_text member_json (Some filePath) (Some language) s
    = (Ok (no_text_extracted, false), s1).
Proof.
  intros remote extname readFileSync key existsSync NODE_ENV stack
         member_text member_json filePath language s text s1 Hl Hp Hb.
  destruct language as [|c language]; [contradiction|].
  unfold process_document, try_catch.
  rewrite (route_parsed remote extname readFileSync key existsSync
             member_text member_json _ _ _ _ _ _ Hp).
  now rewrite (reply_blank remote key existsSync member_text member_json
                 _ _ _ _ Hb).
Qed.

Lemma route_refuses_blank_text_witness :
  process_document no_job txt_extname (reads blank_text) "key" stored None
    no_stack no_member_text no_member_json (Some "uploads/note")
    (Some "Spanish") start
  = (Ok (no_text_extracted, false), start).
Proof.
  apply (route_refuses_blank_text no_job txt_extname (reads blank_text) "key"
           stored None no_stack no_member_text no_member_json "uploads/note"
           "Spanish" start blank_text start).
  - discriminate.
  - reflexivity.
  - reflexivity.
Defined.

Section RouteOutcomes.

Variable remote : nat -> request -> reply.
Variable extname : string -> string.
Variable readFileSync : string -> option string.
Variable key : string.
Variable existsSync : string -> bool.
Variable NODE_ENV : option string.
Variable stack : js_error -> string.
Variable member_text : string -> string.
Variable member_json : string -> option value.

(** The answer of the [catch] of the route. *)
Lemma route_catches filePath c language s e s' :
  route_body remote extname readFileSync key existsSync member_text member_json
    (Some filePath) (Some (String c language)) s = (Throw e, s') ->
  exists a,
    process_document remote extname readFileSync key existsSync NODE_ENV stack
      member_text member_json (Some filePath) (Some (String c language)) s
    = (Ok (a, existsSync filePath), s')
    /\ code a = 500%Z
    /\ get "error" (body a) = Some (VStr "Failed to process document")
    /\ get "message" (body a)
       = Some (VStr (if message e =? "" then "Unknown error occurred"
                     else message e)).
Proof.
  intros H. unfold process_document, try_catch. rewrite H. unfold ret.
  eexists. split; [reflexivity|]. repeat split.
Qed.

End RouteOutcomes.

(** X16. When the parsed text is not a string (a number or a mapping under
    [markdown], say), the route fails on [trim]: it answers with the code
    500 and the message of that error, the summarization service is not
    called, and the upload is removed by the [catch]. *)
Theorem route_fails_on_non_string_text :
  forall remote extname readFileSync key existsSync NODE_ENV stack
         member_text member_json filePath language s v s1,
    language <> "" ->
    parseDocumentWithLlamaParse remote extname readFileSync filePath s
    = (Ok v, s1) ->
    (forall text, v <> VStr text) ->
    exists a,
      process_document remote extname readFileSync key existsSync NODE_ENV stack
        member_text member_json (Some filePath) (Some language) s
      = (Ok (a, existsSync filePath), s1)
      /\ code a = 500%Z
      /\ get "error" (body a) = Some (VStr "Failed to process document")
      /\ get "message" (body a) = Some (VStr "parsedText.trim is not a function").
Proof.
  intros remote extname readFileSync key existsSync NODE_ENV stack
         member_text member_json filePath language s v s1 Hl Hp Hns.
  destruct language as [|c language]; [contradiction|].
  pose proof (parse_outcome remote extname readFileSync filePath s) as Ht.
  rewrite Hp in Ht.
  apply (route_catches remote extname readFileSync key existsSync NODE_ENV stack
           member_text member_json filePath c language s
           (Error "parsedText.trim is not a function") s1).
  rewrite (route_parsed remote extname readFileSync key existsSync
             member_text member_json _ _ _ _ _ _ Hp).
  now apply reply_not_a_string.
Qed.

Lemma route_fails_on_non_string_text_witness :
  exists a,
    process_document (fixed_status number_body) pdf_extname unread "key" stored
      None no_stack no_member_text no_member_json (Some "uploads/scan")
      (Some "Spanish") start
    = (Ok (a, true),
       success_iteration job1
         (called (Upload LLAMAPARSE_API_URL "uploads/scan") start))
    /\ code a = 500%Z
    /\ get "error" (body a) = Some (VStr "Failed to process document")
    /\ get "message" (body a) = Some (VStr "parsedText.trim is not a function").
Proof.
  apply (route_fails_on_non_string_text (fixed_status number_body) pdf_extname
           unread "key" stored None no_stack no_member_text no_member_json
           "uploads/scan" "Spanish" start (VNum 42)).
  - discriminate.
  - reflexivity.
  - discriminate.
Defined.

(** X17. When summarization fails, the route answers with the code 500,
    the title of a processing failure and the message of the error (a fixed
    message when the error has none), and the [catch] removes the upload
    when it is in storage. *)
Theorem route_summary_failure_removes_upload :
  forall remote extname readFileSync key existsSync NODE_ENV stack
         member_text member_json filePath language s text s1 e s2,
    language <> "" ->
    inherited language = false ->
    parseDocumentWithLlamaParse remote extname readFileSync filePath s
    = (Ok (VStr text), s1) ->
    trim text <> "" ->
    summarizeWithGemini remote key text language s1 = (Throw e, s2) ->
    exists a,
      process_document remote extname readFileSync key existsSync NODE_ENV stack
        member_text member_json (Some filePath) (Some language) s
      = (Ok (a, existsSync filePath), s2)
      /\ code a = 500%Z
      /\ get "error" (body a) = Some (VStr "Failed to process document")
      /\ get "message" (body a)
         = Some (VStr (if message e =? "" then "Unknown error occurred"
                       else message e)).
Proof.
  intros remote extname readFileSync key existsSync NODE_ENV stack
         member_text member_json filePath language s text s1 e s2
         Hl Hin Hp Hb Hs.
  destruct language as [|c language]; [contradiction|].
  apply (route_catches remote extname readFileSync key existsSync NODE_ENV stack
           member_text member_json filePath c language s e s2).
  rewrite (route_parsed remote extname readFileSync key existsSync
             member_text member_json _ _ _ _ _ _ Hp).
  rewrite (reply_summarizes remote key existsSync member_text member_json
             _ _ _ _ Hb).
  rewrite (target_is_language _ Hin). unfold bind. cbn [target_text].
  now rewrite Hs.
Qed.

Lemma route_summary_failure_removes_upload_witness :
  exists a,
    process_document quota_after_parse pdf_extname unread "key" stored None
      no_stack no_member_text no_member_json (Some "uploads/scan")
      (Some "Spanish") start
    = (Ok (a, true),
       called (Generate "gemini-1.5-flash" (make_prompt "# Lab report" "Spanish"))
         (success_iteration job1
            (called (Upload LLAMAPARSE_API_URL "uploads/scan") start)))
    /\ code a = 500%Z
    /\ get "error" (body a) = Some (VStr "Failed to process document")
    /\ get "message" (body a)
       = Some (VStr "[429 Too Many Requests] Resource has been exhausted").
Proof.
  apply (route_summary_failure_removes_upload quota_after_parse pdf_extname
           unread "key" stored None no_stack no_member_text no_member_json
           "uploads/scan" "Spanish" start "# Lab report"
           (success_iteration job1
              (called (Upload LLAMAPARSE_API_URL "uploads/scan") start))
           quota_exceeded).
  - discriminate.
  - reflexivity.
  - reflexivity.
  - discriminate.
  - reflexivity.
Defined.

(** X18. When parsing gives a text that is not blank, summarization
    succeeds and the upload is in storage, the route removes the upload and
    answers with the code 200, the summary, the original language [English]
    and the language that was asked for. *)
Theorem route_success :
  forall remote extname readFileSync key existsSync NODE_ENV stack
         member_text member_json filePath language s text s1 summary s2,
    language <> "" ->
    inherited language = false ->
    parseDocumentWithLlamaParse remote extname readFileSync filePath s
    = (Ok (VStr text), s1) ->
    trim text <> "" ->
    summarizeWithGemini remote key text language s1 = (Ok summary, s2) ->
    existsSync filePath = true ->
    process_document remote extname readFileSync key existsSync NODE_ENV stack
      member_text member_json (Some filePath) (Some language) s
    = (Ok (summarized summary language, true), s2).
Proof.
  intros remote extname readFileSync key existsSync NODE_ENV stack
         member_text member_json filePath language s text s1 summary s2
         Hl Hin Hp Hb Hs He.
  destruct language as [|c language]; [contradiction|].
  unfold process_document, try_catch.
  rewrite (route_parsed remote extname readFileSync key existsSync
             member_text member_json _ _ _ _ _ _ Hp).
  rewrite (reply_summarizes remote key existsSync member_text member_json
             _ _ _ _ Hb).
  rewrite (target_is_language _ Hin). unfold bind. cbn [target_text].
  rewrite Hs. unfold unlinkSync. rewrite He. reflexivity.
Qed.

Lemma route_success_witness :
  process_document all_answer pdf_extname unread "key" stored None no_stack
    no_member_text no_member_json (Some "uploads/scan") (Some "Spanish") start
  = (Ok (summarized (VStr "Resumen del documento") "Spanish", true),
     called (Generate "gemini-1.5-flash" (make_prompt "# Lab report" "Spanish"))
       (success_iteration job1
          (called (Upload LLAMAPARSE_API_URL "uploads/scan") start))).
Proof.
  apply (route_success all_answer pdf_extname unread "key" stored None no_stack
           no_member_text no_member_json "uploads/scan" "Spanish" start
           "# Lab report"
           (success_iteration job1
              (called (Upload LLAMAPARSE_API_URL "uploads/scan") start))).
  - discriminate.
  - reflexivity.
  - reflexivity.
  - discriminate.
  - reflexivity.
  - reflexivity.
Defined.

(** X19. The language table changes no language: every language that is
    asked for, whether it is in the table or not, is the target language as
    it stands, unless it is one of the names that the table inherits, in
    which case the inherited member is taken. *)
Theorem language_table_is_identity :
  forall language,
    (inherited language = false -> target_of language = Text language)
    /\ (inherited language = true -> target_of language = Member language).
Proof.
  intros language. split; [apply target_is_language|].
  intros Hin. unfold inherited in Hin.
  apply existsb_exists in Hin. destruct Hin as (name & Hname & Heq).
  apply String.eqb_eq in Heq. subst name.
  unfold object_prototype_names in Hname. simpl in Hname.
  repeat (destruct Hname as [<- | Hname]; [reflexivity|]). contradiction.
Qed.

Lemma language_table_is_identity_witness :
  target_of "Klingon" = Text "Klingon" /\ target_of "toString" = Member "toString".
Proof.
  split; apply language_table_is_identity; reflexivity.
Defined.

(** ** The page and the route together *)

Lemma shown_for_error title : title <> "" -> shown_for "Error" title = title.
Proof.
  intros Hne. unfold shown_for.
  change ("Error" =? "TypeError") with false. cbn [andb].
  destruct (String.eqb_spec title ""); [contradiction | reflexivity].
Qed.

Lemma failure_message_title status statusText fields title :
  get "error" (VObj fields) = Some (VStr title) ->
  title <> "" ->
  failure_message status statusText (Some (VObj fields)) = title.
Proof.
  intros Ht Hne. unfold failure_message, or_else. rewrite Ht. cbn [truthy].
  destruct (String.eqb_spec title ""); [contradiction|].
  cbn [negb truthy]. destruct (String.eqb_spec title ""); [contradiction|].
  reflexivity.
Qed.

Lemma page_shows_answer syntax_error statusText a removed p file language :
  well_formed a removed ->
  selectedFile p = Some file ->
  selectedLanguage p = Some language ->
  language <> "" ->
  let p' := handleSubmit (fun _ _ => served statusText a) syntax_error p in
  isLoading p' = false
  /\ ((code a = 200%Z
       /\ shown_error p' = None
       /\ exists summary, shown_summary p' = Some summary /\ truthy summary = true)
      \/ (code a <> 200%Z
          /\ shown_summary p' = None
          /\ exists title, get "error" (body a) = Some (VStr title)
                           /\ shown_error p' = Some title)).
Proof.
  intros Hwf Hfile Hlang Hne p'. unfold p', handleSubmit.
  rewrite Hfile, Hlang. destruct language as [|c language]; [contradiction|].
  unfold served.
  destruct Hwf as [(Hcode & _ & Hok & summary & Hs & Ht)
                  | (Hcode & title & Htitle & Hnt)].
  - rewrite Hcode. cbn [Z.leb Z.ltb andb negb].
    change ((200 <=? 200)%Z && (200 <? 300)%Z) with true. cbn [negb].
    destruct (body a) eqn:Hb; try discriminate Hs.
    cbv beta iota. split; [reflexivity|]. left.
    repeat split. exists summary. now split.
  - assert (Hnot : ((200 <=? code a)%Z && (code a <? 300)%Z) = false).
    { destruct Hcode as [-> | ->]; reflexivity. }
    rewrite Hnot. cbn [negb]. cbv beta iota.
    split; [reflexivity|]. right.
    split; [destruct Hcode as [-> | ->]; discriminate|].
    split; [reflexivity|]. exists title. split; [exact Htitle|].
    destruct (body a) eqn:Hb; try discriminate Htitle.
    cbn [shown_error].
    now rewrite (failure_message_title _ _ _ _ Htitle Hnt), (shown_for_error _ Hnt).
Qed.

(** X20. The page and the route together: when a file and a language are
    chosen and the request reaches the route, the page ends with the
    loading mark off and shows either the summary, which is not empty, and
    no error, or no summary and the title that the answer carries under
    [error]; the detailed [message] of the answer is not shown. *)
Theorem page_shows_summary_or_title :
  forall remote extname readFileSync key existsSync NODE_ENV stack
         member_text member_json filePath s syntax_error statusText p file language,
    selectedFile p = Some file ->
    selectedLanguage p = Some language ->
    language <> "" ->
    exists a removed s',
      process_document remote extname readFileSync key existsSync NODE_ENV stack
        member_text member_json (Some filePath) (Some language) s
      = (Ok (a, removed), s')
      /\ let p' := handleSubmit (fun _ _ => served statusText a) syntax_error p in
         isLoading p' = false
         /\ ((code a = 200%Z
              /\ shown_error p' = None
              /\ exists summary,
                   shown_summary p' = Some summary /\ truthy summary = true)
             \/ (code a <> 200%Z
                 /\ shown_summary p' = None
                 /\ exists title, get "error" (body a) = Some (VStr title)
                                  /\ shown_error p' = Some title)).
Proof.
  intros remote extname readFileSync key existsSync NODE_ENV stack
         member_text member_json filePath s syntax_error statusText p file
         language Hfile Hlang Hne.
  destruct (route_answers remote extname readFileSync key existsSync NODE_ENV
              stack member_text member_json (Some filePath) (Some language) s)
    as (a & removed & s' & Hrun & Hwf).
  exists a, removed, s'. split; [exact Hrun|].
  exact (page_shows_answer syntax_error statusText a removed p file language
           Hwf Hfile Hlang Hne).
Qed.

Lemma page_shows_summary_or_title_witness :
  shown_error
    (handleSubmit
       (fun _ _ =>
          served "Internal Server Error"
            (parse_failed
               ("Failed to parse document with LlamaParse: No job ID returned from LlamaParse. Response: "
                ++ stringify (VObj [("status", VStr "accepted")]))))
       "Unexpected token" ready_page)
  = Some "Failed to parse document with LlamaParse".
Proof.
  destruct (page_shows_summary_or_title no_job pdf_extname unread "key" stored
              None no_stack no_member_text no_member_json "uploads/scan" start
              "Unexpected token" "Internal Server Error" ready_page "scan.pdf"
              "Spanish" eq_refl eq_refl ltac:(discriminate))
    as (a & removed & s' & Hrun & _ & Hshown).
  injection Hrun as <- _ _.
  destruct Hshown as [(Hcode & _) | (_ & _ & title & Htitle & Hshown)].
  - discriminate Hcode.
  - injection Htitle as <-. exact Hshown.
Defined.

(** ** The cost of a request *)

Section RouteCost.

Variable remote : nat -> request -> reply.

Lemma within_try_models names prompt summary :
  within (length names) 0 (try_models remote names prompt summary).
Proof.
  induction names as [|m names IH]; simpl.
  - apply within_ret.
  - apply (within_bind 1 0 (length names) 0).
    + apply within_attempt, within_call.
    + intros [t|e].
      * eapply within_weaken; [apply within_ret | lia | lia].
      * destruct (model_not_found e); [exact IH|].
        eapply within_weaken; [apply within_throw | lia | lia].
Qed.

Lemma within_summarize key text targetLanguage :
  within 4 0 (summarizeWithGemini remote key text targetLanguage).
Proof.
  unfold summarizeWithGemini.
  apply (within_try_catch 4 0 0 0); [|intros e; apply within_throw].
  cbv zeta. apply (within_bind 3 0 1 0).
  - apply (within_try_models modelNames).
  - intros summary. destruct (negb (truthy summary)).
    + apply (within_bind 1 0 0 0); [apply within_call|]. intros data.
      destruct (rest_text data) as [t|]; [|apply within_throw].
      destruct (truthy t); [apply within_ret | apply within_throw].
    + eapply within_weaken; [apply within_ret | lia | lia].
Qed.

Variable extname : string -> string.
Variable readFileSync : string -> option string.
Variable key : string.
Variable existsSync : string -> bool.
Variable NODE_ENV : option string.
Variable stack : js_error -> string.
Variable member_text : string -> string.
Variable member_json : string -> option value.

Lemma within_reply filePath targetLanguage parsedText :
  within 4 0
    (summarize_and_reply remote key existsSync member_text member_json
       filePath targetLanguage parsedText).
Proof.
  unfold summarize_and_reply.
  destruct parsedText as [| | |text| |];
    try (destruct (negb (truthy _));
         (eapply within_weaken; [apply within_ret || apply within_throw | lia | lia])).
  destruct (_ || _).
  - eapply within_weaken; [apply within_ret | lia | lia].
  - apply (within_bind 4 0 0 0); [apply within_summarize|]. intros summary.
    apply (within_bind 0 0 0 0).
    + unfold unlinkSync. destruct (existsSync filePath);
        [apply within_ret | apply within_throw].
    + intros _. apply within_ret.
Qed.

Lemma within_route file language :
  within 605 60
    (process_document remote extname readFileSync key existsSync NODE_ENV stack
       member_text member_json file language).
Proof.
  unfold process_document.
  apply (within_try_catch 605 60 0 0); [|intros e; apply within_ret].
  unfold route_body.
  destruct file as [filePath|];
    [|eapply within_weaken; [apply within_ret | lia | lia]].
  destruct language as [[|c language]|];
    try (eapply within_weaken; [apply within_ret | lia | lia]).
  apply (within_bind 601 60 4 0).
  - apply within_attempt, within_parse.
  - intros [parsedText|parseError]; [apply within_reply|].
    cbv zeta. destruct (truthy _); [apply within_reply|].
    eapply within_weaken; [apply within_ret | lia | lia].
Qed.

End RouteCost.

(** X21. Whatever the services answer, one request to the route polls at
    most [maxAttempts] times and makes at most 605 calls to the services:
    those of parsing, and at most three models and one REST request for the
    summary. *)
Theorem route_stays_within_budget :
  forall remote extname readFileSync key existsSync NODE_ENV stack
         member_text member_json file language s,
    let s' := snd (process_document remote extname readFileSync key existsSync
                     NODE_ENV stack member_text member_json file language s) in
    polls (trace s') <= polls (trace s) + maxAttempts
    /\ calls s' <= calls s + (1 + maxAttempts * (2 + 6 + 2) + 3 + 1).
Proof.
  intros remote extname readFileSync key existsSync NODE_ENV stack
         member_text member_json file language s s'.
  destruct (within_route remote extname readFileSync key existsSync NODE_ENV
              stack member_text member_json file language s) as [Hc Hp].
  split; [exact Hp | exact Hc].
Qed.
